(** * A GAN training script (experiment_GAN/app.py), embedded and verified

    The script is a thin orchestration layer over numpy and Keras.  The
    development has four parts:

    - [Float]: finite binary floating-point values with IEEE-754
      round-to-nearest-even, enough for the literals and the two arithmetic
      operations the script performs itself;
    - [Numpy]: n-dimensional arrays as a shape with an index function, and the
      array operations the script calls;
    - [Keras]: the objects of the framework the script manipulates (optimizers,
      layers, models, the [trainable] attribute, [compile], [train_on_batch]);
    - [App]: the functions of app.py, in a state-and-exception monad over the
      interpreter's world, and the theorems about them. *)

From Stdlib Require Import ZArith QArith Qabs List Bool Lia Psatz String.
From Stdlib Require Import DecimalString DecimalZ FinFun.
Import ListNotations.

Set Warnings "-register-all".

Local Open Scope Z_scope.

(* ================================================================== *)
(** ** Python exceptions and results *)

Inductive exn : Type :=
| ZeroDivisionError
| OverflowError
| ValueError
| IndexError
| AttributeError
| RuntimeError.

Inductive result (A : Type) : Type :=
| Ok (a : A)
| Raise (e : exn).

Arguments Ok {A} a.
Arguments Raise {A} e.

(* ================================================================== *)
(** ** Binary floating point *)

Module Float.

(** A finite float is [mant * 2 ^ expo]. *)
Record t : Type := mk { mant : Z; expo : Z }.

(** [prec] is the number of significand bits, [emin] the exponent of the
    smallest positive subnormal, [emax] the exponent bound: finite values
    are below [2 ^ emax] in magnitude. *)
Record format : Type := Format { prec : Z; emin : Z; emax : Z }.

Definition binary64 : format := Format 53 (-1074) 1024.
Definition binary32 : format := Format 24 (-149) 128.

Definition zero : t := mk 0 0.

Definition to_Q (f : t) : Q :=
  if 0 <=? expo f
  then inject_Z (mant f * 2 ^ expo f)
  else Qmake (mant f) (Z.to_pos (2 ^ (- expo f))).

(** Nearest integer to [n / d], ties to even ([0 <= n], [0 < d]). *)
Definition rne_div (n d : Z) : Z :=
  let q := n / d in
  let r := n mod d in
  match 2 * r ?= d with
  | Lt => q
  | Gt => q + 1
  | Eq => if Z.even q then q else q + 1
  end.

(** [pow2_le b e a] decides [b * 2 ^ e <= a] for an exponent of any sign. *)
Definition pow2_le (b e a : Z) : bool :=
  if 0 <=? e then b * 2 ^ e <=? a else b <=? a * 2 ^ (- e).

(** [binade a b] is the exponent [e] with [2 ^ e <= a / b < 2 ^ (e + 1)]
    ([0 < a], [0 < b]). *)
Definition binade (a b : Z) : Z :=
  let e0 := Z.log2 a - Z.log2 b in
  if pow2_le b e0 a then e0 else e0 - 1.

(** Correct rounding of the positive rational [a / b]. *)
Definition round_pos (fmt : format) (a b : Z) : t :=
  let e := binade a b in
  let x := Z.max (e - (prec fmt - 1)) (emin fmt) in
  let m := if x <=? 0 then rne_div (a * 2 ^ (- x)) b
           else rne_div a (b * 2 ^ x) in
  mk m x.

Definition round (fmt : format) (q : Q) : t :=
  match Qnum q with
  | Z0 => zero
  | Zpos a => round_pos fmt (Zpos a) (Zpos (Qden q))
  | Zneg a =>
      let r := round_pos fmt (Zpos a) (Zpos (Qden q)) in
      mk (- mant r) (expo r)
  end.

(** A rounded result at or beyond [2 ^ emax] is not a finite float. *)
Definition overflows (fmt : format) (f : t) : bool :=
  Qle_bool (inject_Z (2 ^ emax fmt)) (Qabs (to_Q f)).

(** The arithmetic the script performs: each operation is the exact
    result, rounded once. *)
Definition sub (fmt : format) (x y : t) : t := round fmt (to_Q x - to_Q y).
Definition div (fmt : format) (x y : t) : t := round fmt (to_Q x / to_Q y).

(** The value of a decimal literal [n / d] of the source text. *)
Definition literal (fmt : format) (n : Z) (d : positive) : t :=
  round fmt (Qmake n d).

(** [int(f)]: truncation toward zero. *)
Definition trunc (f : t) : Z :=
  if 0 <=? expo f then mant f * 2 ^ expo f
  else Z.quot (mant f) (2 ^ (- expo f)).

End Float.

(** Python's [a / b] on two ints: the correctly rounded binary64 quotient. *)
Definition py_true_divide (a b : Z) : result Float.t :=
  if b =? 0 then Raise ZeroDivisionError
  else
    let f := Float.round Float.binary64 (inject_Z a / inject_Z b) in
    if Float.overflows Float.binary64 f then Raise OverflowError else Ok f.

(** Python float literals are binary64. *)
Definition py_float (n : Z) (d : positive) : Float.t :=
  Float.literal Float.binary64 n d.

(** [range(lo, hi)]: the [n] integers from [lo] on, [n] being [hi - lo] or
    none when that is negative. *)
Fixpoint count_from (lo : Z) (n : nat) : list Z :=
  match n with
  | O => []
  | S n' => lo :: count_from (lo + 1) n'
  end.

Definition py_range (lo hi : Z) : list Z := count_from lo (Z.to_nat (hi - lo)).

(* ================================================================== *)
(** ** numpy arrays *)

Module Numpy.

(** An array is its shape and the element at each index; the indices that
    matter are the ones inside the shape. *)
Record ndarray (A : Type) : Type := Array { shape : list Z; item : list Z -> A }.

Arguments Array {A} shape item.
Arguments shape {A} n.
Arguments item {A} n idx.

Definition size (s : list Z) : Z := fold_right Z.mul 1 s.

(** Row-major (C order) position of an index, and back. *)
Fixpoint ravel (s idx : list Z) : Z :=
  match s, idx with
  | _ :: s', i :: idx' => i * size s' + ravel s' idx'
  | _, _ => 0
  end.

Fixpoint unravel (s : list Z) (k : Z) : list Z :=
  match s with
  | [] => []
  | _ :: s' => k / size s' :: unravel s' (k mod size s')
  end.

Definition shape_eqb (s1 s2 : list Z) : bool :=
  if list_eq_dec Z.eq_dec s1 s2 then true else false.

(** [a.reshape(new)] *)
Definition reshape {A} (a : ndarray A) (new : list Z) : result (ndarray A) :=
  if size new =? size (shape a)
  then Ok (Array new (fun idx => item a (unravel (shape a) (ravel new idx))))
  else Raise ValueError.

(** Element-wise operations. *)
Definition map {A B} (f : A -> B) (a : ndarray A) : ndarray B :=
  Array (shape a) (fun idx => f (item a idx)).

(** [np.zeros(n)], [np.ones(n)]: float64 vectors. *)
Definition full (n : Z) (v : Float.t) : result (ndarray Float.t) :=
  if n <? 0 then Raise ValueError else Ok (Array [n] (fun _ => v)).

Definition zeros (n : Z) : result (ndarray Float.t) := full n Float.zero.
Definition ones (n : Z) : result (ndarray Float.t) :=
  full n (py_float 1 1).

(** [a[:stop] = v] on a vector; a negative [stop] counts from the end and
    the slice is clipped to the vector. *)
Definition slice_stop (stop len : Z) : Z :=
  if stop <? 0 then Z.max (stop + len) 0 else Z.min stop len.

Definition set_prefix {A} (a : ndarray A) (stop : Z) (v : A) : ndarray A :=
  let k := slice_stop stop (hd 0 (shape a)) in
  Array (shape a)
        (fun idx => match idx with
                    | i :: _ => if (0 <=? i) && (i <? k) then v else item a idx
                    | [] => item a idx
                    end).

(** [np.concatenate([a, b])], along the first axis. *)
Definition concatenate {A} (a b : ndarray A) : result (ndarray A) :=
  match shape a, shape b with
  | ra :: sa, rb :: sb =>
      if shape_eqb sa sb
      then Ok (Array (ra + rb :: sa)
                     (fun idx => match idx with
                                 | i :: rest =>
                                     if i <? ra then item a idx
                                     else item b (i - ra :: rest)
                                 | [] => item a idx
                                 end))
      else Raise ValueError
  | _, _ => Raise ValueError
  end.

(** [x[idx]] with a vector of integer positions; a position [p] is valid
    when [-n <= p < n] and a negative one counts from the end. *)
Definition take {A} (x : ndarray A) (idx : ndarray Z) : result (ndarray A) :=
  match shape x, shape idx with
  | n :: sx, [k] =>
      if forallb (fun i => (- n <=? item idx [i]) && (item idx [i] <? n))
                 (py_range 0 k)
      then Ok (Array (k :: sx)
                     (fun ix => match ix with
                                | i :: rest =>
                                    let p := item idx [i] in
                                    item x ((if p <? 0 then p + n else p) :: rest)
                                | [] => item x ix
                                end))
      else Raise IndexError
  | _, _ => Raise IndexError
  end.

(** Every element of an array of dtype uint8 is a byte. *)
Definition dtype_uint8 (a : ndarray Z) : Prop :=
  forall idx, 0 <= item a idx <= 255.

End Numpy.

Import Numpy.

(* ================================================================== *)
(** ** Loading the dataset (app.py, lines 23-31) *)

(** What [mnist.load_data()] returns:
    [(x_train, y_train), (x_test, y_test)], four uint8 arrays. *)
Definition mnist_splits : Type :=
  ((ndarray Z * ndarray Z) * (ndarray Z * ndarray Z))%type.

(** [.astype(np.float32)] on a uint8 element. *)
Definition astype_float32 (v : Z) : Float.t :=
  Float.round Float.binary32 (inject_Z v).

(** [(v.astype(np.float32) - 127.5) / 127.5]: float32 arithmetic, the Python
    scalar taking the array's type. *)
Definition normalize (v : Z) : Float.t :=
  let c := Float.literal Float.binary32 1275 10 in
  Float.div Float.binary32 (Float.sub Float.binary32 (astype_float32 v) c) c.

(** The exact value of [(v - 127.5) / 127.5]. *)
Definition normalize_spec (v : Z) : Q :=
  (inject_Z v - Qmake 1275 10) / Qmake 1275 10.

(** The three facts checked of [normalize] at each byte value: the result
    is at least -1, at most 1, and is the float32 nearest to
    [normalize_spec v] (the subtraction loses nothing). *)
Definition normalize_ok (v : Z) : bool :=
  Qle_bool (- (1)) (Float.to_Q (normalize v))
  && Qle_bool (Float.to_Q (normalize v)) 1
  && Qeq_bool (Float.to_Q (normalize v))
              (Float.to_Q (Float.round Float.binary32 (normalize_spec v))).

Definition load_minst_data (mnist : mnist_splits)
  : result (ndarray Float.t * ndarray Z * ndarray Z * ndarray Z) :=
  let '((x_train, y_train), (x_test, y_test)) := mnist in
  let x_train := Numpy.map normalize x_train in
  match reshape x_train [60000; 784] with
  | Ok x_train => Ok (x_train, y_train, x_test, y_test)
  | Raise e => Raise e
  end.

(* ================================================================== *)
(** ** Keras objects *)

Module Keras.

Inductive initializer : Type :=
| GlorotUniform
| RandomNormal (stddev : Float.t).

Inductive activation : Type :=
| Linear
| Tanh
| Sigmoid.

Inductive layer : Type :=
| Dense (units : Z) (input_dim : option Z) (act : activation)
        (kernel_initializer : initializer)
| LeakyReLU (alpha : Float.t)
| Dropout (rate : Float.t).

(** A built layer owns the identifiers of its weight tensors (a kernel and a
    bias for [Dense], none for the others). *)
Definition built_layer : Type := (layer * list nat)%type.

(** [Sequential] is a stack of layers; [Model] here is the functional model
    of get_gan_network: an input of width [input_width] fed through the
    nested models in order.  Both are objects: [uid] is the identity under
    which the world keeps their mutable attributes. *)
Inductive model : Type :=
| Sequential (uid : nat) (layers : list built_layer)
| Model (uid : nat) (input_width : Z) (parts : list model).

Definition uid_of (m : model) : nat :=
  match m with Sequential u _ => u | Model u _ _ => u end.

(** All weights of a model. *)
Fixpoint weights_of (m : model) : list nat :=
  match m with
  | Sequential _ ls => flat_map snd ls
  | Model _ _ ps => flat_map weights_of ps
  end.

(** [m.trainable_weights]: nothing when the model's [trainable] attribute is
    false, otherwise what its parts report. *)
Fixpoint trainable_weights (trainable : nat -> bool) (m : model) : list nat :=
  match m with
  | Sequential u ls => if trainable u then flat_map snd ls else []
  | Model u _ ps =>
      if trainable u then flat_map (trainable_weights trainable) ps else []
  end.

Fixpoint last_units (ls : list built_layer) (acc : option Z) : option Z :=
  match ls with
  | [] => acc
  | (Dense u _ _ _, _) :: ls' => last_units ls' (Some u)
  | _ :: ls' => last_units ls' acc
  end.

(** Width of the input a model accepts and of the output it produces. *)
Definition input_width_of (m : model) : option Z :=
  match m with
  | Sequential _ ((Dense _ (Some d) _ _, _) :: _) => Some d
  | Sequential _ _ => None
  | Model _ d _ => Some d
  end.

Fixpoint output_width_of (m : model) : option Z :=
  match m with
  | Sequential _ ls => last_units ls None
  | Model _ _ ps =>
      (fix go (ps : list model) (acc : option Z) : option Z :=
         match ps with
         | [] => acc
         | p :: ps' => go ps' (output_width_of p)
         end) ps None
  end.

(** The state of an [Adam] instance: its two configured hyperparameters and
    its step counter. *)
Record optimizer : Type :=
  Adam { lr : Float.t; beta_1 : Float.t; iterations : Z }.

(** When a training call decides which weights it may write: Keras 2 fixes
    the list when the model is compiled; [AtCall] reads the [trainable]
    attributes at each call instead. *)
Inductive freeze_policy : Type := AtCompile | AtCall.

End Keras.

Import Keras.

(** The numerical side of numpy and of the framework, which the script never
    inspects: random draws, initial weights, the forward pass and the
    gradient step.  [session] is the state the framework keeps to itself
    (the moment estimates of the optimizer, the generator of its dropout
    masks); a gradient step reads it and leaves a new one. *)
Class Backend : Type := {
  rng : Type;
  rng_seed : Z -> rng;
  rng_next : rng -> rng;
  rng_normal : rng -> list Z -> Float.t;
  rng_integer : rng -> Z -> Z;
  tensor : Type;
  initial_weight : layer -> nat -> tensor;
  forward : (nat -> option tensor) -> model -> ndarray Float.t ->
            list Z -> Float.t;
  session : Type;
  session_start : session;
  fit : optimizer -> session -> (nat -> option tensor) -> model ->
        ndarray Float.t -> ndarray Float.t -> (nat -> tensor) * session;
  policy : freeze_policy;
  mnist_load_data : mnist_splits
}.

(* ================================================================== *)
(** ** The interpreter's world *)

Inductive event : Type :=
| Print (epoch : Z)
| SetTrainable (uid : nat) (value : bool)
| TrainOnBatch (uid : nat) (x y : ndarray Float.t)
| Savefig (filename : string).

Section World.

Context {B : Backend}.

Record world : Type := World {
  np_random : rng;
  weights : nat -> option tensor;
  next_weight : nat;
  optimizers : list optimizer;
  next_uid : nat;
  trainable : nat -> bool;
  compiled : nat -> option (nat * list nat);
  hidden : session;
  trace : list event
}.

Definition M (A : Type) : Type := world -> result (A * world).

Definition ret {A} (a : A) : M A := fun w => Ok (a, w).

Definition bind {A C} (c : M A) (k : A -> M C) : M C :=
  fun w => match c w with
           | Ok (a, w') => k a w'
           | Raise e => Raise e
           end.

Definition lift {A} (r : result A) : M A :=
  fun w => match r with Ok a => Ok (a, w) | Raise e => Raise e end.

Definition emit (ev : event) : M unit :=
  fun w => Ok (tt, World (np_random w) (weights w) (next_weight w)
                         (optimizers w) (next_uid w) (trainable w)
                         (compiled w) (hidden w) (trace w ++ [ev])).

(** [for x in xs: body(x)] *)
Fixpoint for_ {A} (xs : list A) (body : A -> M unit) : M unit :=
  match xs with
  | [] => ret tt
  | x :: xs' => bind (body x) (fun _ => for_ xs' body)
  end.

End World.

Declare Scope monad_scope.
Delimit Scope monad_scope with monad.
Notation "x <- c ;; k" := (bind c (fun x => k))
  (at level 61, c at next level, right associativity) : monad_scope.
Notation "c ;; k" := (bind c (fun _ => k))
  (at level 61, right associativity) : monad_scope.

Local Open Scope monad_scope.

(* ================================================================== *)
(** ** numpy's global generator and the framework's calls, in the world *)

Section Calls.

Context {B : Backend}.

Definition set_np_random (g : rng) (w : world) : world :=
  World g (weights w) (next_weight w) (optimizers w) (next_uid w)
        (trainable w) (compiled w) (hidden w) (trace w).

Definition set_weights (s : nat -> option tensor) (n : nat) (w : world) : world :=
  World (np_random w) s n (optimizers w) (next_uid w)
        (trainable w) (compiled w) (hidden w) (trace w).

Definition set_hidden (h : session) (w : world) : world :=
  World (np_random w) (weights w) (next_weight w) (optimizers w) (next_uid w)
        (trainable w) (compiled w) h (trace w).

Definition set_optimizers (os : list optimizer) (w : world) : world :=
  World (np_random w) (weights w) (next_weight w) os (next_uid w)
        (trainable w) (compiled w) (hidden w) (trace w).

Definition set_next_uid (n : nat) (w : world) : world :=
  World (np_random w) (weights w) (next_weight w) (optimizers w) n
        (trainable w) (compiled w) (hidden w) (trace w).

Definition set_trainable_map (t : nat -> bool) (w : world) : world :=
  World (np_random w) (weights w) (next_weight w) (optimizers w) (next_uid w)
        t (compiled w) (hidden w) (trace w).

Definition set_compiled (c : nat -> option (nat * list nat)) (w : world) : world :=
  World (np_random w) (weights w) (next_weight w) (optimizers w) (next_uid w)
        (trainable w) c (hidden w) (trace w).

Definition upd {V} (f : nat -> V) (k : nat) (v : V) : nat -> V :=
  fun k' => if Nat.eqb k' k then v else f k'.

(** The world when the module has been imported: the generator seeded with
    10 (line 18), no object yet; a model is trainable unless told
    otherwise. *)
Definition initial_world : world :=
  World (rng_seed 10) (fun _ => None) 0%nat [] 0%nat
        (fun _ => true) (fun _ => None) session_start [].

(** [np.random.normal(0, 1, size=[r, c])] *)
Definition np_random_normal (size : list Z) : M (ndarray Float.t) :=
  fun w =>
    if forallb (fun d => 0 <=? d) size
    then Ok (Array size (rng_normal (np_random w)),
             set_np_random (rng_next (np_random w)) w)
    else Raise ValueError.

(** [np.random.randint(low, high, size=n)]: [n] integers of
    [low .. high - 1]. *)
Definition np_random_randint (low high n : Z) : M (ndarray Z) :=
  fun w =>
    if (low <? high) && (0 <=? n)
    then Ok (Array [n]
                   (fun idx =>
                      low + rng_integer (np_random w) (hd 0 idx) mod (high - low)),
             set_np_random (rng_next (np_random w)) w)
    else Raise ValueError.

(** [Adam(lr=.., beta_1=..)]: a new optimizer object; its identity is its
    position among the optimizers created so far. *)
Definition new_Adam (lr beta_1 : Float.t) : M nat :=
  fun w => Ok (List.length (optimizers w),
               set_optimizers (optimizers w ++ [Adam lr beta_1 0]) w).

Definition fresh_uid : M nat :=
  fun w => Ok (next_uid w, set_next_uid (S (next_uid w)) w).

(** [Sequential()] *)
Definition new_Sequential : M model :=
  u <- fresh_uid ;; ret (Sequential u []).

(** [Model(inputs=Input(shape=(d,)), outputs=p2(p1(input)))] *)
Definition new_Model (d : Z) (parts : list model) : M model :=
  u <- fresh_uid ;; ret (Model u d parts).

(** [m.add(layer)]: a [Dense] layer gets a kernel and a bias. *)
Definition add (m : model) (l : layer) : M model :=
  fun w =>
    match m with
    | Sequential u ls =>
        match l with
        | Dense _ _ _ _ =>
            let k := next_weight w in
            let s := upd (upd (weights w) k (Some (initial_weight l k)))
                         (S k) (Some (initial_weight l (S k))) in
            Ok (Sequential u (ls ++ [(l, [k; S k])]), set_weights s (S (S k)) w)
        | _ => Ok (Sequential u (ls ++ [(l, [])]), w)
        end
    | Model _ _ _ => Raise AttributeError
    end.

(** [m.compile(loss='binary_crossentropy', optimizer=o)]: the model keeps
    the optimizer it is given (the same object, not a copy) and collects its
    trainable weights as they are now. *)
Definition compile (m : model) (o : nat) : M unit :=
  fun w =>
    Ok (tt, set_compiled
              (upd (compiled w) (uid_of m)
                   (Some (o, trainable_weights (trainable w) m))) w).

(** [m.trainable = b] *)
Definition set_trainable (m : model) (b : bool) : M unit :=
  (fun w => Ok (tt, set_trainable_map (upd (trainable w) (uid_of m) b) w)) ;;
  emit (SetTrainable (uid_of m) b).

(** [m.predict(x)]: [x] is a batch of rows of the model's input width. *)
Definition predict (m : model) (x : ndarray Float.t) : M (ndarray Float.t) :=
  fun w =>
    match shape x, input_width_of m, output_width_of m with
    | [n; d], Some d', Some o =>
        if d =? d' then Ok (Array [n; o] (forward (weights w) m x), w)
        else Raise ValueError
    | _, _, _ => Raise ValueError
    end.

Definition mem (k : nat) (l : list nat) : bool := existsb (Nat.eqb k) l.

Fixpoint step_optimizer (os : list optimizer) (o : nat) : list optimizer :=
  match os, o with
  | [] , _ => []
  | Adam l b i :: os', O => Adam l b (i + 1) :: os'
  | a :: os', S o' => a :: step_optimizer os' o'
  end.

(** The weights a training call on [m] may write: the model's trainable
    weights, as collected at [compile] or as read now, by the backend's
    policy. *)
Definition written (w : world) (m : model) (collected : list nat) : list nat :=
  match policy with
  | AtCompile => collected
  | AtCall => trainable_weights (trainable w) m
  end.

(** [m.train_on_batch(x, y)]: one step of the model's optimizer.  The
    weights in [written] get the value the gradient step computes; every
    other weight is left as it is.  The optimizer's step counter advances
    and the framework's own state moves on. *)
Definition train_on_batch (m : model) (x y : ndarray Float.t) : M unit :=
  fun w =>
    match compiled w (uid_of m) with
    | None => Raise RuntimeError
    | Some (o, collected) =>
        match shape x, shape y, input_width_of m, nth_error (optimizers w) o with
        | [n; d], [n'], Some d', Some opt =>
            if (d =? d') && (n =? n')
            then
              let tw := written w m collected in
              let new := fit opt (hidden w) (weights w) m x y in
              let s := fun k =>
                         if mem k tw then Some (fst new k) else weights w k in
              emit (TrainOnBatch (uid_of m) x y)
                   (set_hidden
                      (snd new)
                      (set_optimizers (step_optimizer (optimizers w) o)
                                      (set_weights s (next_weight w) w)))
            else Raise ValueError
        | _, _, _, _ => Raise ValueError
        end
    end.

End Calls.

(* ================================================================== *)
(** ** app.py *)

Section App.

Context {B : Backend}.

(** line 21 *)
Definition random_dim : Z := 100.

(** lines 35-36: [Adam(lr=0.0002, beta_1=0.5)] *)
Definition get_optimizer : M nat :=
  new_Adam (py_float 2 10000) (py_float 5 10).

(** lines 39-52 *)
Definition get_generator (optimizer : nat) : M model :=
  generator <- new_Sequential ;;
  generator <- add generator
    (Dense 256 (Some random_dim) Linear (RandomNormal (py_float 2 100))) ;;
  generator <- add generator (LeakyReLU (py_float 2 10)) ;;
  generator <- add generator (Dense 512 None Linear GlorotUniform) ;;
  generator <- add generator (LeakyReLU (py_float 2 10)) ;;
  generator <- add generator (Dense 1024 None Linear GlorotUniform) ;;
  generator <- add generator (LeakyReLU (py_float 2 10)) ;;
  generator <- add generator (Dense 784 None Tanh GlorotUniform) ;;
  compile generator optimizer ;;
  ret generator.

(** lines 55-71 *)
Definition get_discriminator (optimizer : nat) : M model :=
  discriminator <- new_Sequential ;;
  discriminator <- add discriminator
    (Dense 1024 (Some 784) Linear (RandomNormal (py_float 2 100))) ;;
  discriminator <- add discriminator (LeakyReLU (py_float 2 10)) ;;
  discriminator <- add discriminator (Dropout (py_float 3 10)) ;;
  discriminator <- add discriminator (Dense 512 None Linear GlorotUniform) ;;
  discriminator <- add discriminator (LeakyReLU (py_float 2 10)) ;;
  discriminator <- add discriminator (Dropout (py_float 3 10)) ;;
  discriminator <- add discriminator (Dense 256 None Linear GlorotUniform) ;;
  discriminator <- add discriminator (LeakyReLU (py_float 2 10)) ;;
  discriminator <- add discriminator (Dropout (py_float 3 10)) ;;
  discriminator <- add discriminator (Dense 1 None Sigmoid GlorotUniform) ;;
  compile discriminator optimizer ;;
  ret discriminator.

(** lines 74-88 *)
Definition get_gan_network (discriminator : model) (random_dim : Z)
           (generator : model) (optimizer : nat) : M model :=
  set_trainable discriminator false ;;
  gan <- new_Model random_dim [generator; discriminator] ;;
  compile gan optimizer ;;
  ret gan.

(** ['gan_generated_image_epoch_%d.png' % epoch] *)
Definition figure_name (epoch : Z) : string :=
  ("gan_generated_image_epoch_"
     ++ NilZero.string_of_int (Z.to_int epoch) ++ ".png")%string.

(** lines 92-103; the figure with its grid of subplots is the file that
    [savefig] writes. *)
Definition plot_generated_images (epoch : Z) (generator : model) : M unit :=
  let examples := 100 in
  noise <- np_random_normal [examples; random_dim] ;;
  generated_images <- predict generator noise ;;
  generated_images <- lift (reshape generated_images [examples; 28; 28]) ;;
  emit (Savefig (figure_name epoch)).

(** lines 121-136, "train the discriminator": a batch of real samples
    followed by generated ones, labelled 0.9 and 0. *)
Definition discriminator_phase (x_train : ndarray Float.t) (batch_size : Z)
           (generator discriminator : model) : M unit :=
  noise <- np_random_normal [batch_size; random_dim] ;;
  index <- np_random_randint 0 (hd 0 (shape x_train)) batch_size ;;
  image_batch <- lift (take x_train index) ;;
  generated_images <- predict generator noise ;;
  X <- lift (concatenate image_batch generated_images) ;;
  y_dis <- lift (zeros (2 * batch_size)) ;;
  let y_dis := set_prefix y_dis batch_size (py_float 9 10) in
  set_trainable discriminator true ;;
  train_on_batch discriminator X y_dis.

(** lines 138-142, "train the generator": fresh noise, labelled 1, through
    the composite network with the discriminator frozen. *)
Definition generator_phase (batch_size : Z)
           (discriminator gan : model) : M unit :=
  noise <- np_random_normal [batch_size; random_dim] ;;
  y_gen <- lift (ones batch_size) ;;
  set_trainable discriminator false ;;
  train_on_batch gan noise y_gen.

(** lines 121-142: the body of the loop over batches. *)
Definition train_batch (x_train : ndarray Float.t) (batch_size : Z)
           (generator discriminator gan : model) : M unit :=
  discriminator_phase x_train batch_size generator discriminator ;;
  generator_phase batch_size discriminator gan.

(** line 144 *)
Definition checkpoint (e : Z) : bool := (e =? 1) || (e mod 20 =? 0).

(** lines 119-145: the body of the loop over epochs. *)
Definition train_epoch (x_train : ndarray Float.t) (batch_size batch_count : Z)
           (generator discriminator gan : model) (e : Z) : M unit :=
  emit (Print e) ;;
  for_ (py_range 0 batch_count)
       (fun _ => train_batch x_train batch_size generator discriminator gan) ;;
  if checkpoint e then plot_generated_images e generator else ret tt.

(** lines 113-116: the objects a run is made of. *)
Record networks : Type := Networks {
  adam : nat;
  generator : model;
  discriminator : model;
  gan : model
}.

Definition build_networks : M networks :=
  adam <- get_optimizer ;;
  generator <- get_generator adam ;;
  discriminator <- get_discriminator adam ;;
  gan <- get_gan_network discriminator random_dim generator adam ;;
  ret (Networks adam generator discriminator gan).

(** lines 106-145 *)
Definition train (epochs batch_size : Z) : M unit :=
  data <- lift (load_minst_data mnist_load_data) ;;
  let '(x_train, y_train, x_test, y_test) := data in
  quotient <- lift (py_true_divide (hd 0 (shape x_train)) batch_size) ;;
  let batch_count := Float.trunc quotient in
  nets <- build_networks ;;
  for_ (py_range 1 (epochs + 1))
       (train_epoch x_train batch_size batch_count
                    (generator nets) (discriminator nets) (gan nets)).

(** lines 148-149 *)
Definition main : result (unit * world) := train 400 128 initial_world.

End App.

(* ================================================================== *)
(** ** Reading a trace *)

(** An event without the arrays it carries. *)
Inductive kind : Type :=
| KPrint (epoch : Z)
| KSetTrainable (uid : nat) (value : bool)
| KTrainOnBatch (uid : nat)
| KSavefig (filename : string).

Definition kind_of (ev : event) : kind :=
  match ev with
  | Print e => KPrint e
  | SetTrainable u b => KSetTrainable u b
  | TrainOnBatch u _ _ => KTrainOnBatch u
  | Savefig f => KSavefig f
  end.

Definition is_step (uid : nat) (k : kind) : bool :=
  match k with KTrainOnBatch u => Nat.eqb u uid | _ => false end.

(** The files written, in order. *)
Definition saved_figures (ks : list kind) : list string :=
  flat_map (fun k => match k with KSavefig f => [f] | _ => [] end) ks.

(** The optimizer steps taken on the model [uid]. *)
Definition steps_on (uid : nat) (ks : list kind) : nat :=
  List.length (filter (is_step uid) ks).

(** The values assigned to [trainable], in order. *)
Definition trainable_writes (ks : list kind) : list bool :=
  flat_map (fun k => match k with KSetTrainable _ b => [b] | _ => [] end) ks.

(** How often a sequence of assignments changes the flag, starting from
    [b0]. *)
Fixpoint toggles (b0 : bool) (bs : list bool) : nat :=
  match bs with
  | [] => 0%nat
  | b :: bs' => ((if Bool.eqb b0 b then 0 else 1) + toggles b bs')%nat
  end.

(** What one batch, one epoch and a whole run leave in the trace, for the
    discriminator [d] and the composite network [g]. *)
Definition batch_kinds (d g : nat) : list kind :=
  [KSetTrainable d true; KTrainOnBatch d; KSetTrainable d false; KTrainOnBatch g].

Definition epoch_kinds (d g : nat) (batch_count : Z) (e : Z) : list kind :=
  (KPrint e
   :: List.concat (repeat (batch_kinds d g) (Z.to_nat batch_count))
   ++ (if checkpoint e then [KSavefig (figure_name e)] else []))%list.

Definition run_kinds (d g : nat) (batch_count epochs : Z) : list kind :=
  KSetTrainable d false
  :: flat_map (epoch_kinds d g batch_count) (py_range 1 (epochs + 1)).

(** The optimizer a compiled model holds. *)
Definition optimizer_of {B : Backend} (w : world) (m : model) : option nat :=
  option_map fst (compiled w (uid_of m)).

(** Each of the three models holding an optimizer object of its own. *)
Definition own_optimizers {B : Backend} (w : world) (nets : networks) : Prop :=
  exists og od oa,
    optimizer_of w (generator nets) = Some og
    /\ optimizer_of w (discriminator nets) = Some od
    /\ optimizer_of w (gan nets) = Some oa
    /\ og <> od /\ od <> oa /\ og <> oa.

(** The networks as lines 113-116 build them in a fresh interpreter. *)
Definition the_generator : model :=
  Sequential 0
    [ (Dense 256 (Some 100) Linear (RandomNormal (py_float 2 100)), [0; 1]%nat);
      (LeakyReLU (py_float 2 10), []);
      (Dense 512 None Linear GlorotUniform, [2; 3]%nat);
      (LeakyReLU (py_float 2 10), []);
      (Dense 1024 None Linear GlorotUniform, [4; 5]%nat);
      (LeakyReLU (py_float 2 10), []);
      (Dense 784 None Tanh GlorotUniform, [6; 7]%nat) ].

Definition the_discriminator : model :=
  Sequential 1
    [ (Dense 1024 (Some 784) Linear (RandomNormal (py_float 2 100)), [8; 9]%nat);
      (LeakyReLU (py_float 2 10), []);
      (Dropout (py_float 3 10), []);
      (Dense 512 None Linear GlorotUniform, [10; 11]%nat);
      (LeakyReLU (py_float 2 10), []);
      (Dropout (py_float 3 10), []);
      (Dense 256 None Linear GlorotUniform, [12; 13]%nat);
      (LeakyReLU (py_float 2 10), []);
      (Dropout (py_float 3 10), []);
      (Dense 1 None Sigmoid GlorotUniform, [14; 15]%nat) ].

Definition the_gan : model := Model 2 100 [the_generator; the_discriminator].

Definition the_networks : networks :=
  Networks 0 the_generator the_discriminator the_gan.

(** What holds of the world from line 116 on: the three models are compiled
    on optimizer 0, each with the trainable weights it had at its [compile]
    (the composite network was compiled with the discriminator frozen, so it
    collected the generator's weights only); the generator and the composite
    network are trainable. *)
Record wired {B : Backend} (w : world) : Prop := Wired {
  wired_generator :
    compiled w 0%nat = Some (0%nat, weights_of the_generator);
  wired_discriminator :
    compiled w 1%nat = Some (0%nat, weights_of the_discriminator);
  wired_gan :
    compiled w 2%nat = Some (0%nat, weights_of the_generator);
  wired_flags :
    trainable w 0%nat = true /\ trainable w 2%nat = true;
  wired_adam :
    exists n, optimizers w = [Adam (py_float 2 10000) (py_float 5 10) n]
}.

(** Between two batches the discriminator's flag is off. *)
Definition ready {B : Backend} (w : world) : Prop :=
  wired w /\ trainable w 1%nat = false.

(* ================================================================== *)
(** ** More to say of the loaded data and of a run *)

(** Two more facts checked of [normalize] at a byte value: the next byte
    goes strictly higher, and the mirrored byte [255 - v] goes to the
    opposite value. *)
Definition normalize_lt_next (v : Z) : bool :=
  negb (Qle_bool (Float.to_Q (normalize (v + 1))) (Float.to_Q (normalize v))).

Definition normalize_mirrored (v : Z) : bool :=
  Qeq_bool (Float.to_Q (normalize (255 - v))) (- Float.to_Q (normalize v)).

(** numpy's generator after [n] more calls. *)
Definition rng_after {B : Backend} (n : nat) (g : rng) : rng :=
  Nat.iter n rng_next g.

(** What a run keeps true of the world [w], told from the world [w0] that
    the construction of the networks left and from the trace so far: the
    models stay wired as built; the tensors of the two networks exist and no
    other tensor is touched; no object is created or compiled again; the one
    optimizer has counted every step taken on either model; numpy's generator
    has been called twice for each discriminator step, once for each
    composite step and once for each figure; and as long as no step has been
    taken the weights and the framework's own state are those of [w0]. *)
Record progress {B : Backend} (w0 w : world) : Prop := Progress {
  progress_ready : ready w;
  progress_tensors :
    next_weight w = next_weight w0
    /\ (forall k, In k (weights_of the_generator ++ weights_of the_discriminator) ->
          weights w k <> None)
    /\ (forall k, ~ In k (weights_of the_generator ++ weights_of the_discriminator) ->
          weights w k = weights w0 k);
  progress_objects :
    next_uid w = next_uid w0 /\ forall u, compiled w u = compiled w0 u;
  progress_steps :
    optimizers w
    = [Adam (py_float 2 10000) (py_float 5 10)
            (Z.of_nat (steps_on 1 (List.map kind_of (trace w))
                       + steps_on 2 (List.map kind_of (trace w))))];
  progress_draws :
    np_random w
    = rng_after (2 * steps_on 1 (List.map kind_of (trace w))
                 + steps_on 2 (List.map kind_of (trace w))
                 + List.length (saved_figures (List.map kind_of (trace w))))
                (np_random w0);
  progress_idle :
    (steps_on 1 (List.map kind_of (trace w))
     + steps_on 2 (List.map kind_of (trace w)) = 0)%nat ->
    (forall k, weights w k = weights w0 k) /\ hidden w = hidden w0
}.

(* ================================================================== *)
(** ** A small backend to run the script on *)

Module Demo.

(** Pixels cycle through the byte values; labels through the digits. *)
Definition images (n : Z) : ndarray Z :=
  Array [n; 28; 28] (fun idx => ravel [n; 28; 28] idx mod 256).

Definition labels (n : Z) : ndarray Z :=
  Array [n] (fun idx => hd 0 idx mod 10).

(** The generator is a counter, every draw is a function of it, a weight
    is a number, a gradient step adds the optimizer's step count plus one
    to it, and the framework's own state counts the steps. *)
Definition backend (p : freeze_policy) : Backend := {|
  rng := Z;
  rng_seed := fun s => s;
  rng_next := fun g => g + 1;
  rng_normal := fun g idx => Float.mk (g + ravel [1; 1] idx) (-4);
  rng_integer := fun g i => 7919 * g + 104729 * i;
  tensor := Z;
  initial_weight := fun _ k => Z.of_nat k;
  forward := fun s m x idx => Float.mk (ravel [1; 1] idx mod 3 - 1) (-1);
  session := Z;
  session_start := 0;
  fit := fun o h s m x y =>
           (fun k => match s k with
                     | Some v => v + iterations o + 1
                     | None => 0
                     end,
            h + 1);
  policy := p;
  mnist_load_data := ((images 60000, labels 60000), (images 10000, labels 10000))
|}.

Definition mnist : mnist_splits :=
  ((images 60000, labels 60000), (images 10000, labels 10000)).

(** The world once lines 113-116 have run. *)
Definition built (p : freeze_policy) : @world (backend p) :=
  match @build_networks (backend p) (@initial_world (backend p)) with
  | Ok (_, w) => w
  | Raise _ => @initial_world (backend p)
  end.

(** What [load_minst_data] makes of the training images. *)
Definition x_train : ndarray Float.t :=
  Array [60000; 784]
        (fun idx => normalize (item (images 60000)
                                    (unravel [60000; 28; 28]
                                             (ravel [60000; 784] idx)))).

End Demo.

(* ================================================================== *)
(** * Theorems *)

(** ** Ranges *)

Lemma In_count_from (n : nat) :
  forall lo v, In v (count_from lo n) <-> lo <= v < lo + Z.of_nat n.
Proof.
  induction n as [|n IH]; intros lo v; simpl count_from.
  - simpl. lia.
  - simpl In. rewrite IH. lia.
Qed.

Lemma In_py_range (lo hi v : Z) : In v (py_range lo hi) <-> lo <= v < hi.
Proof.
  unfold py_range. rewrite In_count_from.
  destruct (Z_le_gt_dec lo hi) as [H|H].
  - rewrite Z2Nat.id by lia. lia.
  - replace (Z.to_nat (hi - lo)) with 0%nat by lia. lia.
Qed.

Lemma length_count_from (n : nat) : forall lo, List.length (count_from lo n) = n.
Proof. induction n; intros; simpl; auto. Qed.

Lemma length_py_range (lo hi : Z) :
  List.length (py_range lo hi) = Z.to_nat (hi - lo).
Proof. apply length_count_from. Qed.

(** ** Literals and roundings, on known values *)

(** 0.9 is the double 0x3FECCCCCCCCCCCCD, 0.0002 the double
    0x3F2A36E2EB1C432D, 0.5 is exact. *)
Example py_float_0_9 : py_float 9 10 = Float.mk 8106479329266893 (-53).
Proof. vm_compute. reflexivity. Qed.

Example py_float_0_0002 : py_float 2 10000 = Float.mk 7378697629483821 (-65).
Proof. vm_compute. reflexivity. Qed.

Example py_float_0_5 : (Float.to_Q (py_float 5 10) == 1 # 2)%Q.
Proof. vm_compute. reflexivity. Qed.

(** The ends of the byte range go to -1 and 1 exactly, the middle to
    the float32 values next to 0. *)
Example normalize_0 : (Float.to_Q (normalize 0) == - (1))%Q.
Proof. vm_compute. reflexivity. Qed.

Example normalize_255 : (Float.to_Q (normalize 255) == 1)%Q.
Proof. vm_compute. reflexivity. Qed.

Example normalize_128 : normalize 128 = Float.mk 8421505 (-31).
Proof. vm_compute. reflexivity. Qed.

Example true_divide_60000_128 :
  py_true_divide 60000 128 = Ok (Float.mk 8246337208320000 (-44))
  /\ Float.trunc (Float.mk 8246337208320000 (-44)) = 468.
Proof. vm_compute. split; reflexivity. Qed.

(** ** Dataset loading *)

Lemma Demo_images_uint8 (n : Z) : dtype_uint8 (Demo.images n).
Proof.
  intros idx. unfold Demo.images. cbn [item].
  pose proof (Z.mod_pos_bound (ravel [n; 28; 28] idx) 256). lia.
Qed.

Lemma Demo_load : load_minst_data Demo.mnist
                  = Ok (Demo.x_train, Demo.labels 60000,
                        Demo.images 10000, Demo.labels 10000).
Proof. reflexivity. Qed.

Lemma normalize_ok_bytes : forallb normalize_ok (py_range 0 256) = true.
Proof. vm_compute. reflexivity. Qed.

Lemma normalize_byte (v : Z) :
  0 <= v <= 255 ->
  (- (1) <= Float.to_Q (normalize v) <= 1)%Q
  /\ (Float.to_Q (normalize v)
      == Float.to_Q (Float.round Float.binary32 (normalize_spec v)))%Q.
Proof.
  intros Hv.
  assert (Hin : In v (py_range 0 256)) by (apply In_py_range; lia).
  pose proof (proj1 (forallb_forall _ _) normalize_ok_bytes v Hin) as Hok.
  unfold normalize_ok in Hok.
  apply andb_prop in Hok as [Hok Heq]. apply andb_prop in Hok as [Hlo Hhi].
  apply Qle_bool_iff in Hlo. apply Qle_bool_iff in Hhi.
  apply Qeq_bool_iff in Heq. auto.
Qed.

Lemma load_minst_data_inv (mnist : mnist_splits)
      (x_train : ndarray Float.t) (y_train x_test y_test : ndarray Z) :
  load_minst_data mnist = Ok (x_train, y_train, x_test, y_test) ->
  reshape (Numpy.map normalize (fst (fst mnist))) [60000; 784] = Ok x_train
  /\ y_train = snd (fst mnist)
  /\ x_test = fst (snd mnist)
  /\ y_test = snd (snd mnist).
Proof.
  destruct mnist as [[xtr ytr] [xte yte]]. unfold load_minst_data.
  destruct (reshape (Numpy.map normalize xtr) [60000; 784]) as [r|e] eqn:E;
    [|discriminate].
  intros H. inversion H; subst. cbn [fst snd]. auto.
Qed.

Lemma reshape_inv {A} (a : ndarray A) (new : list Z) (r : ndarray A) :
  reshape a new = Ok r ->
  size new = size (shape a)
  /\ shape r = new
  /\ forall idx, item r idx = item a (unravel (shape a) (ravel new idx)).
Proof.
  unfold reshape. destruct (size new =? size (shape a)) eqn:E; [|discriminate].
  intros H. inversion H; subst. cbn [shape item].
  apply Z.eqb_eq in E. auto.
Qed.

(** C7: the training images are passed, byte by byte, through
    [(v - 127.5) / 127.5] in float32 and laid out as 60000 rows of 784
    components: whenever loading succeeds on uint8 images, the result has
    shape (60000, 784), its component [i, j] is [normalize] of the raw byte
    at row-major position [i * 784 + j], that value is the float32 nearest to
    [(v - 127.5) / 127.5], and it lies in [-1, 1]. *)
Theorem load_minst_data_normalized (mnist : mnist_splits)
        (x_train : ndarray Float.t) (y_train x_test y_test : ndarray Z) :
  load_minst_data mnist = Ok (x_train, y_train, x_test, y_test) ->
  dtype_uint8 (fst (fst mnist)) ->
  shape x_train = [60000; 784]
  /\ forall i j,
      let raw := fst (fst mnist) in
      let v := item raw (unravel (shape raw) (i * 784 + j)) in
      item x_train [i; j] = normalize v
      /\ (Float.to_Q (item x_train [i; j])
          == Float.to_Q (Float.round Float.binary32 (normalize_spec v)))%Q
      /\ (- (1) <= Float.to_Q (item x_train [i; j]) <= 1)%Q.
Proof.
  intros Hload Hbytes.
  apply load_minst_data_inv in Hload as (Hre & _).
  apply reshape_inv in Hre as (_ & Hshape & Hitem).
  split; [exact Hshape|].
  intros i j raw v.
  assert (Hij : item x_train [i; j] = normalize v).
  { rewrite Hitem. cbn [Numpy.map item shape]. unfold v, raw.
    do 2 f_equal. cbn. f_equal. lia. }
  rewrite Hij. split; [reflexivity|].
  destruct (normalize_byte v (Hbytes _)) as [Hb He]. auto.
Qed.

Lemma load_minst_data_normalized_witness :
  shape Demo.x_train = [60000; 784]
  /\ (- (1) <= Float.to_Q (item Demo.x_train [59999%Z; 783%Z]) <= 1)%Q.
Proof.
  destruct (load_minst_data_normalized Demo.mnist Demo.x_train
              (Demo.labels 60000) (Demo.images 10000) (Demo.labels 10000)
              Demo_load (Demo_images_uint8 60000)) as [Hs Hi].
  split; [exact Hs|]. exact (proj2 (proj2 (Hi 59999 783))).
Defined.

(** C10: only the training images are transformed.  The test images come
    back as the very array the dataset provider returned, so with their raw
    bytes and their (10000, 28, 28) shape, and both label arrays come back
    untouched, while the training images come back flattened. *)
Theorem load_minst_data_test_split_raw (mnist : mnist_splits)
        (x_train : ndarray Float.t) (y_train x_test y_test : ndarray Z) :
  load_minst_data mnist = Ok (x_train, y_train, x_test, y_test) ->
  shape (fst (snd mnist)) = [10000; 28; 28] ->
  dtype_uint8 (fst (snd mnist)) ->
  x_test = fst (snd mnist)
  /\ shape x_test = [10000; 28; 28]
  /\ dtype_uint8 x_test
  /\ y_train = snd (fst mnist)
  /\ y_test = snd (snd mnist)
  /\ shape x_train = [60000; 784].
Proof.
  intros Hload Hshape Hbytes.
  apply load_minst_data_inv in Hload as (Hre & -> & -> & ->).
  apply reshape_inv in Hre as (_ & Hs & _).
  repeat split; auto; apply Hbytes.
Qed.

Lemma load_minst_data_test_split_raw_witness :
  Demo.images 10000 = fst (snd Demo.mnist)
  /\ shape (Demo.images 10000) = [10000; 28; 28]
  /\ dtype_uint8 (Demo.images 10000)
  /\ Demo.labels 60000 = snd (fst Demo.mnist)
  /\ Demo.labels 10000 = snd (snd Demo.mnist)
  /\ shape Demo.x_train = [60000; 784].
Proof.
  exact (load_minst_data_test_split_raw Demo.mnist Demo.x_train
           (Demo.labels 60000) (Demo.images 10000) (Demo.labels 10000)
           Demo_load eq_refl (Demo_images_uint8 10000)).
Defined.

(* ================================================================== *)
(** ** Rounding and the integer part of a quotient

    [int(a / b)] goes through a binary64 quotient.  For a numerator below
    [2 ^ 53] the rounded quotient never reaches the next integer, so the
    integer part is the floor of the exact quotient. *)

Module FloatFacts.
Import Float.

Lemma pow2_split (p q : Z) : 0 <= p -> 0 <= q -> 2 ^ (p + q) = 2 ^ p * 2 ^ q.
Proof. intros. apply Z.pow_add_r; auto. Qed.

Lemma binade_spec (a b : Z) :
  0 < a -> 0 < b ->
  pow2_le b (binade a b) a = true /\ pow2_le b (binade a b + 1) a = false.
Proof.
  intros Ha Hb. unfold binade.
  pose proof (Z.log2_spec a Ha) as [La Ua].
  pose proof (Z.log2_spec b Hb) as [Lb Ub].
  pose proof (Z.log2_nonneg a) as Na. pose proof (Z.log2_nonneg b) as Nb.
  set (L := Z.log2 a) in *. set (M := Z.log2 b) in *.
  replace (Z.succ L) with (L + 1) in Ua by lia.
  replace (Z.succ M) with (M + 1) in Ub by lia.
  assert (P1 : 0 < 2 ^ L) by (apply Z.pow_pos_nonneg; lia).
  assert (P2 : 0 < 2 ^ M) by (apply Z.pow_pos_nonneg; lia).
  destruct (pow2_le b (L - M) a) eqn:E.
  - split; [exact E|]. unfold pow2_le.
    destruct (0 <=? L - M + 1) eqn:S.
    + apply Z.leb_le in S. apply Z.leb_gt.
      replace (L + 1) with (M + (L - M + 1)) in Ua by lia.
      rewrite pow2_split in Ua by lia.
      assert (0 < 2 ^ (L - M + 1)) by (apply Z.pow_pos_nonneg; lia). nia.
    + apply Z.leb_gt in S. apply Z.leb_gt.
      replace M with ((L + 1) + (- (L - M + 1))) in Lb by lia.
      rewrite pow2_split in Lb by lia.
      assert (0 < 2 ^ (- (L - M + 1))) by (apply Z.pow_pos_nonneg; lia). nia.
  - replace (L - M - 1 + 1) with (L - M) by lia. split; [|exact E].
    unfold pow2_le.
    destruct (0 <=? L - M - 1) eqn:S.
    + apply Z.leb_le in S. apply Z.leb_le.
      replace L with ((M + 1) + (L - M - 1)) in La by lia.
      rewrite pow2_split in La by lia.
      assert (0 < 2 ^ (L - M - 1)) by (apply Z.pow_pos_nonneg; lia). nia.
    + apply Z.leb_gt in S. apply Z.leb_le.
      replace (M + 1) with (L + (- (L - M - 1))) in Ub by lia.
      rewrite pow2_split in Ub by lia.
      assert (0 < 2 ^ (- (L - M - 1))) by (apply Z.pow_pos_nonneg; lia). nia.
Qed.

Lemma rne_div_bounds (n d : Z) :
  0 <= n -> 0 < d ->
  n / d <= rne_div n d <= n / d + 1
  /\ (rne_div n d = n / d + 1 -> d <= 2 * (n mod d)).
Proof.
  intros Hn Hd. unfold rne_div.
  destruct (Z.compare_spec (2 * (n mod d)) d) as [E|E|E].
  - destruct (Z.even (n / d)); split; try lia.
  - split; lia.
  - split; lia.
Qed.


Lemma div_scaled (a b S : Z) :
  0 <= a -> 0 < b -> 0 < S ->
  (a / b) * S <= (a * S) / b < (a / b + 1) * S.
Proof.
  intros Ha Hb HS.
  pose proof (Z.div_mod a b ltac:(lia)) as E.
  pose proof (Z.mod_pos_bound a b Hb) as R.
  split.
  - apply Z.div_le_lower_bound; nia.
  - apply Z.div_lt_upper_bound; nia.
Qed.

Lemma round_pos_floor (a b : Z) :
  0 < a < 2 ^ 53 -> 0 < b ->
  let f := round_pos binary64 a b in
  expo f <= 0
  /\ (a / b) * 2 ^ (- expo f) <= mant f < (a / b + 1) * 2 ^ (- expo f).
Proof.
  intros Ha Hb. unfold round_pos. cbn [prec emin binary64 mant expo].
  destruct (binade_spec a b) as [Lo Up]; [lia | lia |].
  set (e := binade a b) in *.
  assert (He : e <= 52).
  { destruct (Z_le_gt_dec e 52) as [|G]; auto. exfalso.
    unfold pow2_le in Lo. replace (0 <=? e) with true in Lo
      by (symmetry; apply Z.leb_le; lia).
    apply Z.leb_le in Lo.
    assert (2 ^ 53 <= 2 ^ e) by (apply Z.pow_le_mono_r; lia). nia. }
  set (x := Z.max (e - (53 - 1)) (-1074)).
  assert (Hx : x <= 0) by (unfold x; lia).
  replace (x <=? 0) with true by (symmetry; apply Z.leb_le; lia).
  split; [exact Hx|].
  assert (HS : 0 < 2 ^ (- x)) by (apply Z.pow_pos_nonneg; lia).
  set (S := 2 ^ (- x)) in *.
  pose proof (div_scaled a b S ltac:(lia) Hb HS) as [D1 D2].
  destruct (rne_div_bounds (a * S) b ltac:(nia) Hb) as [[R1 R2] R3].
  split; [lia|].
  destruct (Z.eq_dec (rne_div (a * S) b) ((a / b + 1) * S)) as [Eq|]; [|lia].
  exfalso.
  assert (Hd : (a * S) / b = (a / b + 1) * S - 1) by lia.
  assert (Hup : b <= 2 * ((a * S) mod b)) by (apply R3; lia).
  pose proof (Z.div_mod (a * S) b ltac:(lia)) as E1.
  pose proof (Z.div_mod a b ltac:(lia)) as E2.
  pose proof (Z.mod_pos_bound a b Hb) as M2.
  rewrite Hd in E1.
  (* the remainder is at most b - S, so rounding up needs 2 S <= b *)
  assert (HbS : 2 * S <= b) by nia.
  destruct (Z_le_gt_dec (-1074) (e - 52)) as [Nrm|Sub].
  - (* normal range: b < 2 ^ (53 - e) = 2 S *)
    assert (Sx : S = 2 ^ (52 - e)) by (unfold S, x; f_equal; lia).
    unfold pow2_le in Lo. destruct (0 <=? e) eqn:Se.
    + apply Z.leb_le in Se. apply Z.leb_le in Lo.
      assert (P : 2 ^ 53 = 2 ^ e * (2 * S)).
      { rewrite Sx. replace 53 with (e + (1 + (52 - e))) at 1 by lia.
        rewrite pow2_split by lia. rewrite pow2_split by lia. reflexivity. }
      assert (0 < 2 ^ e) by (apply Z.pow_pos_nonneg; lia). nia.
    + apply Z.leb_gt in Se. apply Z.leb_le in Lo.
      assert (P : 2 * S = 2 ^ 53 * 2 ^ (- e)).
      { rewrite Sx. replace (52 - e) with (52 + (- e)) by lia.
        rewrite pow2_split by lia. change (2 ^ 53) with (2 * 2 ^ 52). ring. }
      assert (0 < 2 ^ (- e)) by (apply Z.pow_pos_nonneg; lia). nia.
  - (* subnormal range: the quotient is below 2 ^ 52 *)
    assert (Sx : S = 2 ^ 1022 * 2 ^ 52).
    { unfold S, x. replace (- Z.max (e - (53 - 1)) (-1074)) with 1074 by lia.
      vm_compute. reflexivity. }
    unfold pow2_le in Up.
    replace (0 <=? e + 1) with false in Up by (symmetry; apply Z.leb_gt; lia).
    apply Z.leb_gt in Up.
    assert (Q : 2 ^ 1022 <= 2 ^ (- (e + 1))) by (apply Z.pow_le_mono_r; lia).
    assert (0 < 2 ^ 1022) by (apply Z.pow_pos_nonneg; lia).
    assert (a * 2 ^ 1022 < b) by nia.
    assert (0 < 2 ^ 52) by (apply Z.pow_pos_nonneg; lia).
    assert (a / b = 0) by (apply Z.div_small; nia).
    assert ((a * S) / b < 2 ^ 52).
    { apply Z.div_lt_upper_bound; [lia|]. rewrite Sx. nia. }
    assert (2 ^ 52 < S) by (rewrite Sx; vm_compute; reflexivity).
    nia.
Qed.


Lemma trunc_floor (m x k : Z) :
  x <= 0 -> 0 <= k -> k * 2 ^ (- x) <= m < (k + 1) * 2 ^ (- x) ->
  trunc (mk m x) = k.
Proof.
  intros Hx Hk Hm. unfold trunc. cbn [mant expo].
  assert (HS : 0 < 2 ^ (- x)) by (apply Z.pow_pos_nonneg; lia).
  destruct (0 <=? x) eqn:E.
  - apply Z.leb_le in E. replace x with 0 in * by lia.
    change (2 ^ (- 0)) with 1 in Hm. change (2 ^ 0) with 1. lia.
  - rewrite Z.quot_div_nonneg by nia.
    symmetry. apply Z.div_unique with (r := m - k * 2 ^ (- x)); nia.
Qed.

Lemma small_no_overflow (m x : Z) :
  x <= 0 -> Z.abs m < 2 ^ 53 * 2 ^ (- x) ->
  overflows binary64 (mk m x) = false.
Proof.
  intros Hx Hm. unfold overflows. cbn [emax binary64].
  assert (HS : 0 < 2 ^ (- x)) by (apply Z.pow_pos_nonneg; lia).
  assert (H53 : 2 ^ 53 < 2 ^ 1024) by (vm_compute; reflexivity).
  destruct (Qle_bool (inject_Z (2 ^ 1024)) (Qabs (to_Q (mk m x)))) eqn:E; auto.
  exfalso. apply Qle_bool_iff in E. revert E.
  unfold to_Q. cbn [mant expo].
  set (T := 2 ^ 1024) in *.
  destruct (0 <=? x) eqn:Ex.
  - apply Z.leb_le in Ex. replace x with 0 in * by lia.
    change (2 ^ (- 0)) with 1 in Hm. change (2 ^ 0) with 1.
    unfold Qle, Qabs, inject_Z. cbn [Qnum Qden]. lia.
  - unfold Qle, Qabs, inject_Z. cbn [Qnum Qden].
    rewrite Z2Pos.id by lia. nia.
Qed.

End FloatFacts.

Import FloatFacts.

Lemma py_true_divide_floor (n b : Z) :
  0 <= n < 2 ^ 53 -> 0 < b ->
  exists q, py_true_divide n b = Ok q /\ Float.trunc q = n / b.
Proof.
  intros Hn Hb. unfold py_true_divide.
  replace (b =? 0) with false by (symmetry; apply Z.eqb_neq; lia).
  destruct b as [|p|p]; try lia.
  unfold Float.round. cbn [Qdiv Qinv Qmult inject_Z Qnum Qden Pos.mul].
  rewrite Z.mul_1_r.
  destruct n as [|a|a]; try lia.
  - exists Float.zero. split; [reflexivity|].
    rewrite Z.div_0_l by lia. reflexivity.
  - destruct (round_pos_floor (Z.pos a) (Z.pos p) ltac:(lia) ltac:(lia))
      as (Hx & Hm).
    destruct (Float.round_pos Float.binary64 (Z.pos a) (Z.pos p)) as [m x] eqn:E.
    cbn [Float.mant Float.expo] in *.
    assert (HS : 0 < 2 ^ (- x)) by (apply Z.pow_pos_nonneg; lia).
    assert (Hk : 0 <= Z.pos a / Z.pos p) by (apply Z.div_pos; lia).
    assert (Hk2 : Z.pos a / Z.pos p <= Z.pos a)
      by (apply Z.div_le_upper_bound; nia).
    rewrite small_no_overflow by (try lia; nia).
    eexists. split; [reflexivity|]. apply trunc_floor; auto.
Qed.

Lemma round_pos_small (a b : Z) :
  0 < a < 2 ^ 53 -> 0 < b ->
  let r := Float.round_pos Float.binary64 a b in
  0 <= Float.mant r
  /\ Float.overflows Float.binary64 r = false
  /\ Float.overflows Float.binary64 (Float.mk (- Float.mant r) (Float.expo r))
     = false.
Proof.
  intros Ha Hb r.
  destruct (round_pos_floor a b Ha Hb) as (Hx & Hm). fold r in Hx, Hm.
  assert (HS : 0 < 2 ^ (- Float.expo r)) by (apply Z.pow_pos_nonneg; lia).
  assert (Hk : 0 <= a / b) by (apply Z.div_pos; lia).
  assert (Hk2 : a / b <= a) by (apply Z.div_le_upper_bound; nia).
  split; [nia|].
  destruct r as [m x]. cbn [Float.mant Float.expo] in *.
  split; apply small_no_overflow; auto.
  - rewrite Z.abs_eq by nia. nia.
  - rewrite Z.abs_opp, Z.abs_eq by nia. nia.
Qed.

Lemma trunc_opp_nonpos (m x : Z) : 0 <= m -> Float.trunc (Float.mk (- m) x) <= 0.
Proof.
  intros Hm. unfold Float.trunc. cbn [Float.mant Float.expo].
  destruct (0 <=? x) eqn:E.
  - apply Z.leb_le in E.
    assert (0 < 2 ^ x) by (apply Z.pow_pos_nonneg; lia). nia.
  - apply Z.leb_gt in E.
    assert (0 < 2 ^ (- x)) by (apply Z.pow_pos_nonneg; lia).
    rewrite Z.quot_opp_l by lia.
    pose proof (Z.quot_pos m (2 ^ (- x)) Hm ltac:(lia)). lia.
Qed.

(** A quotient of a numerator below [2 ^ 53] by a non-zero divisor raises
    nothing, and a negative divisor gives no positive count. *)
Lemma py_true_divide_ok (n b : Z) :
  Z.abs n < 2 ^ 53 -> b <> 0 ->
  exists q, py_true_divide n b = Ok q
            /\ (0 <= n -> b < 0 -> Float.trunc q <= 0).
Proof.
  intros Hn Hb. unfold py_true_divide.
  replace (b =? 0) with false by (symmetry; apply Z.eqb_neq; lia).
  assert (Q : exists num den, (inject_Z n / inject_Z b)%Q = Qmake num den
                              /\ Z.abs num = Z.abs n
                              /\ (0 <= n -> b < 0 -> num <= 0)).
  { destruct b as [|p|p]; try lia;
      unfold Qdiv, Qinv, Qmult, inject_Z; cbn [Qnum Qden Pos.mul];
      eexists; eexists; split; try reflexivity; lia. }
  destruct Q as (num & den & -> & Hnum & Hsign).
  unfold Float.round. cbn [Qnum Qden].
  destruct num as [|a|a].
  - exists Float.zero. split; [reflexivity|]. intros _ _. discriminate.
  - destruct (round_pos_small (Z.pos a) (Z.pos den) ltac:(lia) ltac:(lia))
      as (_ & O & _).
    rewrite O. eexists. split; [reflexivity|]. lia.
  - destruct (round_pos_small (Z.pos a) (Z.pos den) ltac:(lia) ltac:(lia))
      as (Hm & _ & O).
    rewrite O. eexists. split; [reflexivity|].
    intros _ _. apply trunc_opp_nonpos. exact Hm.
Qed.


(* ================================================================== *)
(** ** The calls, one by one *)

Section CallFacts.

Context {B : Backend}.

Lemma bind_ok {A C} (c : M A) (k : A -> M C) (w w' : world) (a : A) :
  c w = Ok (a, w') -> bind c k w = k a w'.
Proof. intros H. unfold bind. rewrite H. reflexivity. Qed.

Lemma lift_ok {A} (r : result A) (a : A) (w : world) :
  r = Ok a -> lift r w = Ok (a, w).
Proof. intros ->. reflexivity. Qed.

Lemma np_random_normal_ok (r c : Z) (w : world) :
  0 <= r -> 0 <= c ->
  np_random_normal [r; c] w
  = Ok (Array [r; c] (rng_normal (np_random w)),
        set_np_random (rng_next (np_random w)) w).
Proof.
  intros Hr Hc. unfold np_random_normal. cbn [forallb].
  apply Z.leb_le in Hr, Hc. rewrite Hr, Hc. reflexivity.
Qed.

Lemma np_random_randint_ok (low high n : Z) (w : world) :
  low < high -> 0 <= n ->
  np_random_randint low high n w
  = Ok (Array [n] (fun idx => low + rng_integer (np_random w) (hd 0 idx)
                                    mod (high - low)),
        set_np_random (rng_next (np_random w)) w).
Proof.
  intros Hl Hn. unfold np_random_randint.
  apply Z.ltb_lt in Hl. apply Z.leb_le in Hn. rewrite Hl, Hn. reflexivity.
Qed.

Lemma take_ok {A} (x : ndarray A) (idx : ndarray Z) (n k : Z) (sx : list Z) :
  shape x = n :: sx -> shape idx = [k] ->
  (forall i, 0 <= i < k -> - n <= item idx [i] < n) ->
  take x idx
  = Ok (Array (k :: sx)
              (fun ix => match ix with
                         | i :: rest =>
                             let p := item idx [i] in
                             item x ((if p <? 0 then p + n else p) :: rest)
                         | [] => item x ix
                         end)).
Proof.
  intros Hx Hi Hr. unfold take. rewrite Hx, Hi.
  replace (forallb _ (py_range 0 k)) with true; [reflexivity|].
  symmetry. apply forallb_forall. intros i Hin.
  apply In_py_range in Hin. specialize (Hr i Hin).
  apply andb_true_intro. split; [apply Z.leb_le | apply Z.ltb_lt]; lia.
Qed.

Lemma predict_ok (m : model) (x : ndarray Float.t) (n d o : Z) (w : world) :
  shape x = [n; d] -> input_width_of m = Some d -> output_width_of m = Some o ->
  predict m x w = Ok (Array [n; o] (forward (weights w) m x), w).
Proof.
  intros Hx Hi Ho. unfold predict. rewrite Hx, Hi, Ho, Z.eqb_refl. reflexivity.
Qed.

Lemma concatenate_ok {A} (a b : ndarray A) (ra rb : Z) (s : list Z) :
  shape a = ra :: s -> shape b = rb :: s ->
  concatenate a b
  = Ok (Array (ra + rb :: s)
              (fun idx => match idx with
                          | i :: rest =>
                              if i <? ra then item a idx
                              else item b (i - ra :: rest)
                          | [] => item a idx
                          end)).
Proof.
  intros Ha Hb. unfold concatenate. rewrite Ha, Hb.
  unfold shape_eqb. destruct (list_eq_dec Z.eq_dec s s); [reflexivity|].
  congruence.
Qed.

Lemma full_ok (n : Z) (v : Float.t) :
  0 <= n -> full n v = Ok (Array [n] (fun _ => v)).
Proof.
  intros Hn. unfold full.
  replace (n <? 0) with false by (symmetry; apply Z.ltb_ge; lia). reflexivity.
Qed.

Lemma set_trainable_ok (m : model) (b : bool) (w : world) :
  set_trainable m b w
  = Ok (tt, World (np_random w) (weights w) (next_weight w) (optimizers w)
                  (next_uid w) (upd (trainable w) (uid_of m) b) (compiled w)
                  (hidden w) (trace w ++ [SetTrainable (uid_of m) b])).
Proof. reflexivity. Qed.

Lemma train_on_batch_ok (m : model) (x y : ndarray Float.t) (w : world)
      (o : nat) (collected : list nat) (n d : Z) (opt : optimizer) :
  compiled w (uid_of m) = Some (o, collected) ->
  shape x = [n; d] -> shape y = [n] -> input_width_of m = Some d ->
  nth_error (optimizers w) o = Some opt ->
  train_on_batch m x y w
  = Ok (tt, World (np_random w)
                  (fun k => if mem k (written w m collected)
                            then Some (fst (fit opt (hidden w) (weights w) m x y) k)
                            else weights w k)
                  (next_weight w) (step_optimizer (optimizers w) o)
                  (next_uid w) (trainable w) (compiled w)
                  (snd (fit opt (hidden w) (weights w) m x y))
                  (trace w ++ [TrainOnBatch (uid_of m) x y])).
Proof.
  intros Hc Hx Hy Hi Ho. unfold train_on_batch.
  rewrite Hc, Hx, Hy, Hi, Ho, !Z.eqb_refl. reflexivity.
Qed.

Lemma build_networks_ok :
  exists w0,
    build_networks initial_world = Ok (the_networks, w0)
    /\ ready w0
    /\ trace w0 = [SetTrainable 1 false]
    /\ optimizers w0 = [Adam (py_float 2 10000) (py_float 5 10) 0].
Proof.
  eexists. split; [cbv - [py_float]; reflexivity|].
  split; [|split; reflexivity].
  split; [|reflexivity].
  constructor; cbn [compiled trainable optimizers]; try reflexivity.
  - split; reflexivity.
  - exists 0. reflexivity.
Qed.

End CallFacts.

(* ================================================================== *)
(** ** The two phases of a batch *)

Section PhaseFacts.

Context {B : Backend}.

Lemma mem_In (k : nat) (l : list nat) : mem k l = true <-> In k l.
Proof.
  unfold mem. rewrite existsb_exists. split.
  - intros (x & Hx & E). apply Nat.eqb_eq in E. subst. exact Hx.
  - intros H. exists k. split; [exact H | apply Nat.eqb_refl].
Qed.

(** Whatever the policy, a step on the discriminator writes the
    discriminator's weights when its flag is on. *)
Lemma written_discriminator (w : world) :
  trainable w 1%nat = true ->
  written w the_discriminator (weights_of the_discriminator)
  = weights_of the_discriminator.
Proof.
  intros H. unfold written. destruct policy; [reflexivity|].
  cbn [trainable_weights the_discriminator]. rewrite H. reflexivity.
Qed.

(** Whatever the policy, a step on the composite network writes the
    generator's weights when the discriminator's flag is off. *)
Lemma written_gan (w : world) (k : nat) :
  trainable w 0%nat = true -> trainable w 1%nat = false ->
  trainable w 2%nat = true ->
  mem k (written w the_gan (weights_of the_generator))
  = mem k (weights_of the_generator).
Proof.
  intros H0 H1 H2. unfold written. destruct policy; [reflexivity|].
  cbn [trainable_weights the_gan the_generator the_discriminator flat_map].
  rewrite H0, H1, H2. rewrite !app_nil_r. reflexivity.
Qed.

Lemma weights_disjoint (k : nat) :
  In k (weights_of the_generator) -> In k (weights_of the_discriminator) -> False.
Proof.
  cbn. intros H1 H2.
  repeat (destruct H1 as [H1|H1]; [subst k; repeat (destruct H2 as [H2|H2]; [discriminate|]); exact H2|]).
  exact H1.
Qed.

Variables (x_train : ndarray Float.t) (N batch_size : Z).
Hypothesis x_train_shape : shape x_train = [N; 784].
Hypothesis N_pos : 0 < N.
Hypothesis batch_size_pos : 1 <= batch_size.

Lemma discriminator_phase_spec (w : world) :
  wired w ->
  let noise := Array [batch_size; random_dim] (rng_normal (np_random w)) in
  exists image_batch generated_images X y_dis w1,
    discriminator_phase x_train batch_size the_generator the_discriminator w
    = Ok (tt, w1)
    /\ (wired w1 /\ trainable w1 1%nat = true)
    /\ trace w1 = trace w ++ [SetTrainable 1 true; TrainOnBatch 1 X y_dis]
    /\ (shape image_batch = [batch_size; 784]
        /\ (forall i j, 0 <= i < batch_size ->
              exists p, 0 <= p < N
                        /\ item image_batch [i; j] = item x_train [p; j])
        /\ predict the_generator noise w = Ok (generated_images, w)
        /\ shape generated_images = [batch_size; 784]
        /\ concatenate image_batch generated_images = Ok X)
    /\ (shape X = [2 * batch_size; 784]
        /\ (forall i j, 0 <= i < batch_size ->
              item X [i; j] = item image_batch [i; j])
        /\ (forall i j, batch_size <= i < 2 * batch_size ->
              item X [i; j] = item generated_images [i - batch_size; j]))
    /\ (shape y_dis = [2 * batch_size]
        /\ (forall i, 0 <= i < batch_size -> item y_dis [i] = py_float 9 10)
        /\ (forall i, batch_size <= i < 2 * batch_size ->
              item y_dis [i] = Float.zero))
    /\ (forall k, ~ In k (weights_of the_discriminator) ->
          weights w1 k = weights w k)
    /\ (exists opt,
          nth_error (optimizers w) 0 = Some opt
          /\ optimizers w1 = step_optimizer (optimizers w) 0
          /\ forall k, In k (weights_of the_discriminator) ->
               weights w1 k
               = Some (fst (fit opt (hidden w) (weights w)
                                the_discriminator X y_dis) k)).
Proof.
  intros Hw noise. destruct Hw as [Hg Hd Ha [F0 F2] [n Hopt]].
  unfold discriminator_phase.
  rewrite (bind_ok _ _ _ _ _ (np_random_normal_ok batch_size random_dim w
                                ltac:(lia) ltac:(unfold random_dim; lia))).
  fold noise. rewrite x_train_shape. cbn [hd].
  set (w_a := set_np_random (rng_next (np_random w)) w).
  rewrite (bind_ok _ _ _ _ _ (np_random_randint_ok 0 N batch_size w_a
                                N_pos ltac:(lia))).
  set (index := Array [batch_size] _).
  set (w_b := set_np_random _ w_a).
  assert (Hidx : forall i, 0 <= item index [i] < N).
  { intros i. unfold index. cbn [item hd].
    pose proof (Z.mod_pos_bound (rng_integer (np_random w_a) i) (N - 0)
                  ltac:(lia)). lia. }
  erewrite bind_ok;
    [|apply lift_ok;
      apply (take_ok x_train index N batch_size [784] x_train_shape eq_refl);
      intros i _; specialize (Hidx i); lia].
  set (image_batch := Array (batch_size :: [784]) _).
  erewrite bind_ok;
    [|apply (predict_ok the_generator noise batch_size random_dim 784);
      reflexivity].
  set (generated_images := Array [batch_size; 784] _).
  erewrite bind_ok;
    [|apply lift_ok;
      apply (concatenate_ok image_batch generated_images batch_size
                            batch_size [784]); reflexivity].
  set (X := Array (batch_size + batch_size :: [784]) _).
  erewrite bind_ok; [|apply lift_ok; apply full_ok; lia].
  set (y_dis := set_prefix _ batch_size (py_float 9 10)).
  rewrite (bind_ok _ _ _ _ _ (set_trainable_ok the_discriminator true w_b)).
  set (w_c := World _ _ _ _ _ _ _ _ _).
  erewrite (train_on_batch_ok the_discriminator X y_dis w_c 0
              (weights_of the_discriminator) (2 * batch_size) 784);
    [| exact Hd | unfold X; cbn [shape]; f_equal; lia | reflexivity | reflexivity
     | unfold w_c, w_b, w_a; cbn [optimizers set_np_random]; rewrite Hopt;
       reflexivity].
  exists image_batch, generated_images, X, y_dis. eexists.
  split; [reflexivity|].
  split.
  { split; [|reflexivity].
    constructor; cbn [compiled trainable optimizers]; auto.
    exists (n + 1). cbn. rewrite Hopt. reflexivity. }
  split.
  { unfold w_c, w_b, w_a. cbn [trace set_np_random]. rewrite <- app_assoc.
    reflexivity. }
  split.
  { split; [reflexivity|]. split.
    - intros i j Hi. exists (item index [i]). split; [apply Hidx|].
      unfold image_batch. cbn [item].
      replace (item index [i] <? 0) with false
        by (symmetry; apply Z.ltb_ge; apply Hidx).
      reflexivity.
    - split; [|split; reflexivity].
      unfold generated_images, w_b, w_a. cbn [weights set_np_random].
      apply (predict_ok the_generator noise batch_size random_dim 784);
        reflexivity. }
  split.
  { split; [unfold X; cbn [shape]; f_equal; lia|]. split.
    - intros i j Hi. unfold X. cbn [item].
      replace (i <? batch_size) with true
        by (symmetry; apply Z.ltb_lt; lia). reflexivity.
    - intros i j Hi. unfold X. cbn [item].
      replace (i <? batch_size) with false
        by (symmetry; apply Z.ltb_ge; lia). reflexivity. }
  split.
  { assert (Hk : slice_stop batch_size (2 * batch_size) = batch_size).
    { unfold slice_stop.
      replace (batch_size <? 0) with false
        by (symmetry; apply Z.ltb_ge; lia). lia. }
    split; [reflexivity|]. split.
    - intros i Hi. unfold y_dis, set_prefix. cbn [item shape hd].
      rewrite Hk.
      replace ((0 <=? i) && (i <? batch_size)) with true; [reflexivity|].
      symmetry. apply andb_true_intro.
      split; [apply Z.leb_le | apply Z.ltb_lt]; lia.
    - intros i Hi. unfold y_dis, set_prefix. cbn [item shape hd].
      rewrite Hk.
      replace (i <? batch_size) with false
        by (symmetry; apply Z.ltb_ge; lia).
      rewrite andb_false_r. reflexivity. }
  split.
  { intros k Hk. cbn [weights].
    rewrite written_discriminator by reflexivity.
    destruct (mem k (weights_of the_discriminator)) eqn:E.
    - apply mem_In in E. contradiction.
    - reflexivity. }
  eexists. split; [rewrite Hopt; reflexivity|]. split; [reflexivity|].
  intros k Hk. cbn [weights].
  rewrite written_discriminator by reflexivity.
  apply mem_In in Hk. rewrite Hk. reflexivity.
Qed.


Lemma generator_phase_spec (w : world) :
  wired w ->
  exists noise y_gen w2,
    generator_phase batch_size the_discriminator the_gan w = Ok (tt, w2)
    /\ ready w2
    /\ trace w2 = trace w ++ [SetTrainable 1 false; TrainOnBatch 2 noise y_gen]
    /\ shape noise = [batch_size; random_dim]
    /\ (shape y_gen = [batch_size] /\ forall i, item y_gen [i] = py_float 1 1)
    /\ (forall k, ~ In k (weights_of the_generator) ->
          weights w2 k = weights w k)
    /\ (exists opt,
          nth_error (optimizers w) 0 = Some opt
          /\ optimizers w2 = step_optimizer (optimizers w) 0
          /\ forall k, In k (weights_of the_generator) ->
               weights w2 k
               = Some (fst (fit opt (hidden w) (weights w)
                                the_gan noise y_gen) k)).
Proof.
  intros Hw. destruct Hw as [Hg Hd Ha [F0 F2] [n Hopt]].
  unfold generator_phase.
  rewrite (bind_ok _ _ _ _ _ (np_random_normal_ok batch_size random_dim w
                                ltac:(lia) ltac:(unfold random_dim; lia))).
  set (noise := Array [batch_size; random_dim] _).
  set (w_a := set_np_random (rng_next (np_random w)) w).
  erewrite bind_ok; [|apply lift_ok; apply full_ok; lia].
  set (y_gen := Array [batch_size] _).
  rewrite (bind_ok _ _ _ _ _ (set_trainable_ok the_discriminator false w_a)).
  set (w_b := World _ _ _ _ _ _ _ _ _).
  erewrite (train_on_batch_ok the_gan noise y_gen w_b 0
              (weights_of the_generator) batch_size random_dim);
    [| exact Ha | reflexivity | reflexivity | reflexivity
     | unfold w_b, w_a; cbn [optimizers set_np_random]; rewrite Hopt;
       reflexivity].
  exists noise, y_gen. eexists.
  split; [reflexivity|].
  split.
  { split; [|reflexivity].
    constructor; cbn [compiled trainable optimizers]; auto.
    exists (n + 1). cbn. rewrite Hopt. reflexivity. }
  split.
  { unfold w_b, w_a. cbn [trace set_np_random]. rewrite <- app_assoc.
    reflexivity. }
  split; [reflexivity|].
  split; [split; [reflexivity | intros i; reflexivity]|].
  split.
  { intros k Hk. cbn [weights].
    rewrite written_gan by (unfold w_b, w_a; cbn; auto).
    destruct (mem k (weights_of the_generator)) eqn:E.
    - apply mem_In in E. contradiction.
    - reflexivity. }
  eexists. split; [rewrite Hopt; reflexivity|]. split; [reflexivity|].
  intros k Hk. cbn [weights].
  rewrite written_gan by (unfold w_b, w_a; cbn; auto).
  apply mem_In in Hk. rewrite Hk. reflexivity.
Qed.

Lemma train_batch_spec (w : world) :
  ready w ->
  exists w2,
    train_batch x_train batch_size the_generator the_discriminator the_gan w
    = Ok (tt, w2)
    /\ ready w2
    /\ List.map kind_of (trace w2)
       = List.map kind_of (trace w) ++ batch_kinds 1 2.
Proof.
  intros [Hw _].
  destruct (discriminator_phase_spec w Hw)
    as (ib & gi & X & y & w1 & E1 & [Hw1 _] & T1 & _).
  destruct (generator_phase_spec w1 Hw1)
    as (nz & yg & w2 & E2 & R2 & T2 & _).
  exists w2. unfold train_batch. rewrite (bind_ok _ _ _ _ _ E1).
  split; [exact E2|]. split; [exact R2|].
  rewrite T2, T1, !map_app, <- app_assoc. reflexivity.
Qed.

End PhaseFacts.

(* ================================================================== *)
(** ** Loops, epochs, runs *)

Section RunFacts.

Context {B : Backend}.

Lemma for_spec {A} (body : A -> M unit) (I : world -> Prop)
      (ks : A -> list kind) :
  (forall x w, I w ->
     exists w', body x w = Ok (tt, w') /\ I w'
                /\ List.map kind_of (trace w')
                   = List.map kind_of (trace w) ++ ks x) ->
  forall xs w, I w ->
    exists w', for_ xs body w = Ok (tt, w') /\ I w'
               /\ List.map kind_of (trace w')
                  = List.map kind_of (trace w) ++ flat_map ks xs.
Proof.
  intros Hbody xs. induction xs as [|x xs IH]; intros w Hw.
  - exists w. cbn. rewrite app_nil_r. auto.
  - destruct (Hbody x w Hw) as (w1 & E1 & I1 & T1).
    destruct (IH w1 I1) as (w2 & E2 & I2 & T2).
    exists w2. cbn [for_]. rewrite (bind_ok _ _ _ _ _ E1).
    split; [exact E2|]. split; [exact I2|].
    rewrite T2, T1, <- app_assoc. reflexivity.
Qed.

Lemma flat_map_const {A C} (l : list C) (xs : list A) :
  flat_map (fun _ => l) xs = List.concat (repeat l (List.length xs)).
Proof. induction xs; cbn; [reflexivity | rewrite IHxs; reflexivity]. Qed.

Lemma plot_generated_images_spec (e : Z) (w : world) :
  ready w ->
  exists w',
    plot_generated_images e the_generator w = Ok (tt, w')
    /\ ready w'
    /\ trace w' = trace w ++ [Savefig (figure_name e)]
    /\ weights w' = weights w.
Proof.
  intros [[Hg Hd Ha HF HO] Hf]. unfold plot_generated_images.
  rewrite (bind_ok _ _ _ _ _ (np_random_normal_ok 100 random_dim w
                                ltac:(lia) ltac:(unfold random_dim; lia))).
  erewrite bind_ok;
    [|apply (predict_ok the_generator _ 100 random_dim 784); reflexivity].
  erewrite bind_ok; [|apply lift_ok; reflexivity].
  eexists. split; [reflexivity|].
  split; [|split; reflexivity].
  split; [constructor|]; assumption.
Qed.

Lemma train_epoch_spec (x_train : ndarray Float.t) (N batch_size batch_count : Z)
      (e : Z) (w : world) :
  shape x_train = [N; 784] -> 0 < N ->
  1 <= batch_size \/ batch_count <= 0 ->
  ready w ->
  exists w',
    train_epoch x_train batch_size batch_count
                the_generator the_discriminator the_gan e w = Ok (tt, w')
    /\ ready w'
    /\ List.map kind_of (trace w')
       = List.map kind_of (trace w) ++ epoch_kinds 1 2 batch_count e.
Proof.
  intros Hx HN Hb Hw. unfold train_epoch.
  unfold emit at 1. unfold bind at 1.
  set (w_a := World _ _ _ _ _ _ _ _ (trace w ++ [Print e])).
  assert (Ra : ready w_a).
  { destruct Hw as [[Hg Hd Ha HF HO] Hf]. split; [constructor|]; assumption. }
  assert (Hloop :
            exists w_b,
              for_ (py_range 0 batch_count)
                   (fun _ : Z => train_batch x_train batch_size the_generator
                                             the_discriminator the_gan) w_a
              = Ok (tt, w_b)
              /\ ready w_b
              /\ List.map kind_of (trace w_b)
                 = List.map kind_of (trace w_a)
                   ++ List.concat (repeat (batch_kinds 1 2)
                                          (Z.to_nat batch_count))).
  { destruct Hb as [Hb|Hb].
    - destruct (for_spec
                  (fun _ : Z => train_batch x_train batch_size the_generator
                                            the_discriminator the_gan)
                  ready (fun _ => batch_kinds 1 2)
                  (fun _ w0 H0 =>
                     train_batch_spec x_train N batch_size Hx HN Hb w0 H0)
                  (py_range 0 batch_count) w_a Ra)
        as (w_b & Eb & Rb & Tb).
      rewrite flat_map_const, length_py_range, Z.sub_0_r in Tb.
      exists w_b. auto.
    - exists w_a. unfold py_range.
      replace (Z.to_nat (batch_count - 0)) with 0%nat by lia.
      replace (Z.to_nat batch_count) with 0%nat by lia.
      cbn. rewrite app_nil_r. auto. }
  destruct Hloop as (w_b & Eb & Rb & Tb).
  rewrite (bind_ok _ _ _ _ _ Eb).
  unfold epoch_kinds. destruct (checkpoint e).
  - destruct (plot_generated_images_spec e w_b Rb) as (w_c & Ec & Rc & Tc & _).
    exists w_c. split; [exact Ec|]. split; [exact Rc|].
    rewrite Tc, map_app, Tb. unfold w_a. cbn [trace].
    rewrite map_app. cbn [List.map kind_of]. rewrite <- !app_assoc.
    reflexivity.
  - exists w_b. split; [reflexivity|]. split; [exact Rb|].
    rewrite Tb. unfold w_a. cbn [trace].
    rewrite map_app. cbn [List.map kind_of]. rewrite <- !app_assoc.
    rewrite app_nil_r. reflexivity.
Qed.

Variables (x_train : ndarray Float.t) (y_train x_test y_test : ndarray Z).
Hypothesis loaded :
  load_minst_data mnist_load_data = Ok (x_train, y_train, x_test, y_test).

Lemma loaded_shape : shape x_train = [60000; 784].
Proof.
  apply load_minst_data_inv in loaded as (Hre & _).
  apply reshape_inv in Hre as (_ & Hs & _). exact Hs.
Qed.

Lemma train_spec (epochs batch_size : Z) :
  batch_size <> 0 ->
  exists quotient w,
    py_true_divide 60000 batch_size = Ok quotient
    /\ (1 <= batch_size -> Float.trunc quotient = 60000 / batch_size)
    /\ (batch_size < 0 -> Float.trunc quotient <= 0)
    /\ train epochs batch_size initial_world = Ok (tt, w)
    /\ ready w
    /\ List.map kind_of (trace w)
       = run_kinds 1 2 (Float.trunc quotient) epochs.
Proof.
  intros Hb.
  assert (Hq : exists q,
             py_true_divide 60000 batch_size = Ok q
             /\ (1 <= batch_size -> Float.trunc q = 60000 / batch_size)
             /\ (batch_size < 0 -> Float.trunc q <= 0)).
  { destruct (Z_lt_le_dec 0 batch_size) as [Hpos|Hneg].
    - destruct (py_true_divide_floor 60000 batch_size
                  ltac:(split; [lia | reflexivity]) Hpos) as (q & Eq & Hq).
      exists q. split; [exact Eq|]. split; [auto | lia].
    - destruct (py_true_divide_ok 60000 batch_size
                  ltac:(vm_compute; reflexivity) Hb) as (q & Eq & Hq).
      exists q. split; [exact Eq|]. split; [lia|]. intros H. apply Hq; lia. }
  destruct Hq as (q & Eq & Hpos & Hneg).
  exists q. unfold train.
  rewrite (bind_ok _ _ _ _ _ (lift_ok _ _ _ loaded)).
  cbv beta iota. rewrite loaded_shape. cbn [hd].
  rewrite (bind_ok _ _ _ _ _ (lift_ok _ _ _ Eq)).
  destruct build_networks_ok as (w0 & E0 & R0 & T0 & _).
  rewrite (bind_ok _ _ _ _ _ E0). cbn [generator discriminator gan the_networks].
  assert (Hb' : 1 <= batch_size \/ Float.trunc q <= 0) by lia.
  destruct (for_spec _ ready (epoch_kinds 1 2 (Float.trunc q))
              (fun e w1 H1 =>
                 train_epoch_spec x_train 60000 batch_size
                                  (Float.trunc q) e w1 loaded_shape
                                  ltac:(lia) Hb' H1)
              (py_range 1 (epochs + 1)) w0 R0) as (w & E & R & T).
  exists w. split; [exact Eq|]. split; [exact Hpos|]. split; [exact Hneg|].
  split; [exact E|]. split; [exact R|].
  rewrite T, T0. reflexivity.
Qed.

Lemma train_no_epoch (batch_size : Z) :
  batch_size <> 0 ->
  exists w0,
    build_networks initial_world = Ok (the_networks, w0)
    /\ train 0 batch_size initial_world = Ok (tt, w0)
    /\ trace w0 = [SetTrainable 1 false]
    /\ optimizers w0 = [Adam (py_float 2 10000) (py_float 5 10) 0].
Proof.
  intros Hb. unfold train.
  rewrite (bind_ok _ _ _ _ _ (lift_ok _ _ _ loaded)).
  cbv beta iota. rewrite loaded_shape. cbn [hd].
  destruct (py_true_divide_ok 60000 batch_size
              ltac:(vm_compute; reflexivity) Hb) as (q & Eq & _).
  rewrite (bind_ok _ _ _ _ _ (lift_ok _ _ _ Eq)).
  destruct build_networks_ok as (w0 & E0 & _ & T0 & O0).
  exists w0. split; [exact E0|].
  rewrite (bind_ok _ _ _ _ _ E0). auto.
Qed.

(** A batch size of 0 stops the call at line 110, whatever the number of
    epochs. *)
Lemma train_zero_batch_size (epochs : Z) :
  train epochs 0 initial_world = Raise ZeroDivisionError.
Proof.
  unfold train.
  rewrite (bind_ok _ _ _ _ _ (lift_ok _ _ _ loaded)).
  reflexivity.
Qed.

End RunFacts.


(* ================================================================== *)
(** ** Reading traces *)

Lemma saved_figures_app (l1 l2 : list kind) :
  saved_figures (l1 ++ l2) = (saved_figures l1 ++ saved_figures l2)%list.
Proof. apply flat_map_app. Qed.

Lemma saved_figures_batches (d g : nat) (n : nat) :
  saved_figures (List.concat (repeat (batch_kinds d g) n)) = [].
Proof. induction n; cbn; auto. Qed.

Lemma saved_figures_epoch (d g : nat) (bc e : Z) :
  saved_figures (epoch_kinds d g bc e)
  = if checkpoint e then [figure_name e] else [].
Proof.
  unfold epoch_kinds. change (KPrint e :: ?l) with ([KPrint e] ++ l)%list.
  rewrite !saved_figures_app, saved_figures_batches.
  destruct (checkpoint e); reflexivity.
Qed.

Lemma saved_figures_epochs (d g : nat) (bc : Z) (es : list Z) :
  saved_figures (flat_map (epoch_kinds d g bc) es)
  = List.map figure_name (filter checkpoint es).
Proof.
  induction es as [|e es IH]; [reflexivity|].
  cbn [flat_map filter]. rewrite saved_figures_app, saved_figures_epoch, IH.
  destruct (checkpoint e); reflexivity.
Qed.

Lemma saved_figures_run (d g : nat) (bc epochs : Z) :
  saved_figures (run_kinds d g bc epochs)
  = List.map figure_name (filter checkpoint (py_range 1 (epochs + 1))).
Proof. unfold run_kinds. cbn [saved_figures flat_map]. apply saved_figures_epochs. Qed.

Lemma steps_on_app (u : nat) (l1 l2 : list kind) :
  steps_on u (l1 ++ l2) = (steps_on u l1 + steps_on u l2)%nat.
Proof. unfold steps_on. rewrite filter_app, length_app. reflexivity. Qed.

Lemma steps_on_batches (u : nat) (n : nat) :
  steps_on u (List.concat (repeat (batch_kinds 1 2) n))
  = (n * steps_on u (batch_kinds 1 2))%nat.
Proof.
  induction n; [reflexivity|].
  cbn [repeat List.concat]. rewrite steps_on_app, IHn. lia.
Qed.

Lemma steps_on_epoch (u : nat) (bc e : Z) :
  steps_on u (epoch_kinds 1 2 bc e)
  = (Z.to_nat bc * steps_on u (batch_kinds 1 2))%nat.
Proof.
  unfold epoch_kinds. change (KPrint e :: ?l) with ([KPrint e] ++ l)%list.
  rewrite !steps_on_app, steps_on_batches.
  destruct (checkpoint e); cbn; lia.
Qed.

Lemma steps_on_epochs (u : nat) (bc : Z) (es : list Z) :
  steps_on u (flat_map (epoch_kinds 1 2 bc) es)
  = (List.length es * (Z.to_nat bc * steps_on u (batch_kinds 1 2)))%nat.
Proof.
  induction es as [|e es IH]; [reflexivity|].
  cbn [flat_map List.length]. rewrite steps_on_app, steps_on_epoch, IH. lia.
Qed.

Lemma steps_on_run (u : nat) (bc epochs : Z) :
  steps_on u (run_kinds 1 2 bc epochs)
  = (Z.to_nat epochs * (Z.to_nat bc * steps_on u (batch_kinds 1 2)))%nat.
Proof.
  unfold run_kinds.
  change (KSetTrainable 1 false :: ?l) with ([KSetTrainable 1 false] ++ l)%list.
  rewrite steps_on_app, steps_on_epochs, length_py_range.
  replace (epochs + 1 - 1) with epochs by lia. reflexivity.
Qed.

Lemma checkpoint_iff (e : Z) : checkpoint e = true <-> e = 1 \/ e mod 20 = 0.
Proof.
  unfold checkpoint. rewrite orb_true_iff, !Z.eqb_eq. reflexivity.
Qed.

Lemma checkpoints_in_run (epochs e : Z) :
  In e (filter checkpoint (py_range 1 (epochs + 1)))
  <-> 1 <= e <= epochs /\ (e = 1 \/ e mod 20 = 0).
Proof.
  rewrite filter_In, In_py_range, checkpoint_iff. lia.
Qed.

(* ================================================================== *)
(** ** The networks and their optimizer *)

Section Construction.

Context {B : Backend}.

(** C1, as the code has it: the generator, the discriminator and the
    composite network are all compiled on one optimizer, the single [Adam]
    object that line 113 creates, whose learning rate is the float 0.0002
    and whose first-moment decay is 0.5. *)
Theorem networks_share_one_optimizer :
  exists w0,
    build_networks initial_world = Ok (the_networks, w0)
    /\ optimizer_of w0 (generator the_networks) = Some (adam the_networks)
    /\ optimizer_of w0 (discriminator the_networks) = Some (adam the_networks)
    /\ optimizer_of w0 (gan the_networks) = Some (adam the_networks)
    /\ optimizers w0 = [Adam (py_float 2 10000) (py_float 5 10) 0]
    /\ nth_error (optimizers w0) (adam the_networks)
       = Some (Adam (py_float 2 10000) (py_float 5 10) 0)
    /\ (Float.to_Q (py_float 5 10) == 1 # 2)%Q
    /\ py_float 2 10000
       = Float.round Float.binary64 (2 # 10000).
Proof.
  destruct build_networks_ok as (w0 & E0 & [[Hg Hd Ha _ _] _] & _ & Ho).
  exists w0. split; [exact E0|].
  unfold optimizer_of.
  cbn [generator discriminator gan adam the_networks uid_of
       the_generator the_discriminator the_gan].
  rewrite Hg, Hd, Ha, Ho.
  repeat split; try reflexivity.
Qed.

(** The generator as built: three hidden layers of 256, 512 and 1024 units,
    each followed by a leaky rectifier of slope 0.2, and a 784-unit output
    layer with [tanh]; on a batch of rows of width 100 it answers with as
    many rows of width 784, on any other input it raises. *)
Lemma generator_shapes (noise : ndarray Float.t) (w : world) :
  (forall n, shape noise = [n; 100] ->
     predict the_generator noise w
     = Ok (Array [n; 784] (forward (weights w) the_generator noise), w))
  /\ ((forall n, shape noise <> [n; 100]) ->
      predict the_generator noise w = Raise ValueError).
Proof.
  split.
  - intros n Hs. apply (predict_ok the_generator noise n 100 784); auto.
  - intros Hs. unfold predict.
    cbn [input_width_of output_width_of the_generator last_units].
    destruct (shape noise) as [|n [|d [|? ?]]]; try reflexivity.
    destruct (Z.eqb_spec d 100) as [->|Hd]; [|reflexivity].
    exfalso. apply (Hs n). reflexivity.
Qed.

End Construction.

(** C1, as written, fails: in a run of lines 113-116 the three models do not
    hold three different optimizer objects. *)
Lemma own_optimizers_counterexample :
  exists nets w,
    @build_networks (Demo.backend AtCompile) initial_world = Ok (nets, w)
    /\ ~ own_optimizers w nets.
Proof.
  exists the_networks, (Demo.built AtCompile).
  split; [cbv - [py_float]; reflexivity|].
  intros (og & od & oa & Hg & Hd & _ & Hne & _).
  cbv - [py_float] in Hg, Hd. congruence.
Qed.

(* ================================================================== *)
(** ** One batch *)

Section Batch.

Context {B : Backend}.

(** C2: in a batch step the discriminator is trained on the real samples
    followed by the generated ones, with a label vector of length
    [2 * batch_size] whose first [batch_size] entries are the float 0.9 and
    whose other entries are 0.0; for a batch size of 128 that is 256
    labels, 0.9 at positions 0..127 and 0.0 at positions 128..255. *)
Theorem discriminator_batch_and_labels
        (x_train : ndarray Float.t) (N batch_size : Z) (w : world) :
  shape x_train = [N; 784] -> 0 < N -> 1 <= batch_size -> wired w ->
  exists image_batch generated_images X y_dis w1,
    discriminator_phase x_train batch_size the_generator the_discriminator w
    = Ok (tt, w1)
    /\ trace w1 = trace w ++ [SetTrainable 1 true; TrainOnBatch 1 X y_dis]
    /\ (shape image_batch = [batch_size; 784]
        /\ (forall i j, 0 <= i < batch_size ->
              exists p, 0 <= p < N
                        /\ item image_batch [i; j] = item x_train [p; j])
        /\ predict the_generator
                   (Array [batch_size; random_dim] (rng_normal (np_random w))) w
           = Ok (generated_images, w)
        /\ shape generated_images = [batch_size; 784]
        /\ concatenate image_batch generated_images = Ok X)
    /\ (shape X = [2 * batch_size; 784]
        /\ (forall i j, 0 <= i < batch_size ->
              item X [i; j] = item image_batch [i; j])
        /\ (forall i j, batch_size <= i < 2 * batch_size ->
              item X [i; j] = item generated_images [i - batch_size; j]))
    /\ (shape y_dis = [2 * batch_size]
        /\ (forall i, 0 <= i < batch_size -> item y_dis [i] = py_float 9 10)
        /\ (forall i, batch_size <= i < 2 * batch_size ->
              item y_dis [i] = Float.zero))
    /\ (batch_size = 128 ->
        shape y_dis = [256]
        /\ (forall i, 0 <= i <= 127 -> item y_dis [i] = py_float 9 10)
        /\ (forall i, 128 <= i <= 255 -> item y_dis [i] = Float.zero))
    /\ (Float.to_Q (py_float 9 10) < 1)%Q
    /\ (Float.to_Q Float.zero == 0)%Q.
Proof.
  intros Hx HN Hb Hw.
  destruct (discriminator_phase_spec x_train N batch_size Hx HN Hb w Hw)
    as (ib & gi & X & y & w1 & E1 & _ & T1 & HI & HX & HY & _).
  exists ib, gi, X, y, w1.
  split; [exact E1|]. split; [exact T1|]. split; [exact HI|].
  split; [exact HX|]. split; [exact HY|].
  split.
  - intros ->. destruct HY as (Hs & H9 & H0).
    split; [exact Hs|]. split; intros i Hi; [apply H9 | apply H0]; lia.
  - split; [vm_compute; reflexivity | reflexivity].
Qed.

End Batch.

(* ================================================================== *)
(** ** Whole runs *)

Section Runs.

Context {B : Backend}.

Variables (x_train : ndarray Float.t) (y_train x_test y_test : ndarray Z).
Hypothesis loaded :
  load_minst_data mnist_load_data = Ok (x_train, y_train, x_test, y_test).

(** C3: in a run over the epochs 1..N the figure is saved at epoch 1 and at
    the multiples of 20, in that order, and at no other epoch; over the
    epochs 1..45 these are the epochs 1, 20 and 40. *)
Theorem checkpoint_schedule (epochs batch_size : Z) :
  batch_size <> 0 ->
  exists w,
    train epochs batch_size initial_world = Ok (tt, w)
    /\ saved_figures (List.map kind_of (trace w))
       = List.map figure_name (filter checkpoint (py_range 1 (epochs + 1)))
    /\ (forall e, In e (filter checkpoint (py_range 1 (epochs + 1)))
                  <-> 1 <= e <= epochs /\ (e = 1 \/ e mod 20 = 0))
    /\ (1 <= epochs <= 45 ->
        forall e, In e (filter checkpoint (py_range 1 (epochs + 1)))
                  <-> e <= epochs /\ (e = 1 \/ e = 20 \/ e = 40))
    /\ (epochs = 45 ->
        saved_figures (List.map kind_of (trace w))
        = [ "gan_generated_image_epoch_1.png";
            "gan_generated_image_epoch_20.png";
            "gan_generated_image_epoch_40.png" ]%string).
Proof.
  intros Hb.
  destruct (train_spec x_train y_train x_test y_test loaded epochs batch_size Hb)
    as (q & w & _ & _ & _ & E & _ & T).
  exists w. split; [exact E|].
  assert (S : saved_figures (List.map kind_of (trace w))
              = List.map figure_name
                         (filter checkpoint (py_range 1 (epochs + 1))))
    by (rewrite T; apply saved_figures_run).
  split; [exact S|]. split; [apply checkpoints_in_run|]. split.
  - intros He e. rewrite checkpoints_in_run. split.
    + intros (H1 & [H|H]); [lia|].
      pose proof (Z.div_mod e 20 ltac:(lia)) as D. rewrite H in D. lia.
    + intros (H1 & [ -> | [ -> | -> ] ]); (split; [lia|]); auto; right; reflexivity.
  - intros ->. rewrite S. vm_compute. reflexivity.
Qed.

(** C5: the discriminator's flag is set to true immediately before the
    discriminator's optimizer step and to false immediately before the
    composite network's step, so it changes twice in a batch; the step on
    the discriminator leaves every weight outside the discriminator as it
    was (the generator's in particular), the step on the composite network
    leaves every weight outside the generator as it was (the
    discriminator's in particular); a run is made of such batches. *)
Theorem trainable_flag_discipline (epochs batch_size : Z) :
  1 <= batch_size ->
  (exists wf,
      train epochs batch_size initial_world = Ok (tt, wf)
      /\ List.map kind_of (trace wf)
         = run_kinds 1 2 (60000 / batch_size) epochs)
  /\ batch_kinds 1 2
     = [KSetTrainable 1 true; KTrainOnBatch 1;
        KSetTrainable 1 false; KTrainOnBatch 2]
  /\ forall w, ready w ->
     exists X y_dis noise y_gen w1 w2,
       discriminator_phase x_train batch_size the_generator the_discriminator w
       = Ok (tt, w1)
       /\ generator_phase batch_size the_discriminator the_gan w1 = Ok (tt, w2)
       /\ train_batch x_train batch_size the_generator the_discriminator
                      the_gan w = Ok (tt, w2)
       /\ trace w2
          = trace w ++ [SetTrainable 1 true; TrainOnBatch 1 X y_dis;
                        SetTrainable 1 false; TrainOnBatch 2 noise y_gen]
       /\ (trainable w 1%nat = false /\ trainable w1 1%nat = true
           /\ trainable w2 1%nat = false)
       /\ toggles (trainable w 1%nat) (trainable_writes (batch_kinds 1 2))
          = 2%nat
       /\ (forall k, ~ In k (weights_of the_discriminator) ->
             weights w1 k = weights w k)
       /\ (forall k, In k (weights_of the_generator) ->
             weights w1 k = weights w k)
       /\ (forall k, ~ In k (weights_of the_generator) ->
             weights w2 k = weights w1 k)
       /\ (forall k, In k (weights_of the_discriminator) ->
             weights w2 k = weights w1 k)
       /\ (exists opt1 opt2,
             nth_error (optimizers w) 0 = Some opt1
             /\ nth_error (optimizers w1) 0 = Some opt2
             /\ (forall k, In k (weights_of the_discriminator) ->
                   weights w1 k
                   = Some (fst (fit opt1 (hidden w) (weights w)
                                    the_discriminator X y_dis) k))
             /\ (forall k, In k (weights_of the_generator) ->
                   weights w2 k
                   = Some (fst (fit opt2 (hidden w1) (weights w1)
                                    the_gan noise y_gen) k)))
       /\ ready w2.
Proof.
  intros Hb. split; [|split; [reflexivity|]].
  - destruct (train_spec x_train y_train x_test y_test loaded epochs
                         batch_size ltac:(lia))
      as (q & w & _ & Hq & _ & E & _ & T).
    exists w. rewrite <- (Hq Hb). auto.
  - intros w [Hw Hf].
    pose proof (loaded_shape x_train y_train x_test y_test loaded) as Hx.
    destruct (discriminator_phase_spec x_train 60000 batch_size Hx
                ltac:(lia) Hb w Hw)
      as (ib & gi & X & y & w1 & E1 & [Hw1 Hf1] & T1 & _ & _ & _ & F1
          & (opt1 & O1 & _ & V1)).
    destruct (generator_phase_spec batch_size Hb w1 Hw1)
      as (nz & yg & w2 & E2 & R2 & T2 & _ & _ & F2 & (opt2 & O2 & _ & V2)).
    exists X, y, nz, yg, w1, w2.
    split; [exact E1|]. split; [exact E2|].
    split; [unfold train_batch; rewrite (bind_ok _ _ _ _ _ E1); exact E2|].
    split; [rewrite T2, T1, <- app_assoc; reflexivity|].
    split; [destruct R2 as [_ Hf2]; auto|].
    split; [rewrite Hf; reflexivity|].
    split; [exact F1|].
    split; [intros k Hk; apply F1; intros Hd;
            exact (weights_disjoint k Hk Hd)|].
    split; [exact F2|].
    split; [intros k Hk; apply F2; intros Hg;
            exact (weights_disjoint k Hg Hk)|].
    split; [exists opt1, opt2; auto|].
    exact R2.
Qed.

(** C6: every epoch takes [batch_count] batch steps, [batch_count] being
    the integer part of the float quotient of the dataset size by the batch
    size, which is the floor of the exact quotient: 60000 rows give
    [60000 / batch_size] steps an epoch on the discriminator and as many on
    the composite network, 468 for a batch size of 128; and for any dataset
    size below [2 ^ 53] the count computed is the floor as well. *)
Theorem batches_per_epoch (epochs batch_size : Z) :
  1 <= batch_size ->
  exists quotient w,
    hd 0 (shape x_train) = 60000
    /\ py_true_divide (hd 0 (shape x_train)) batch_size = Ok quotient
    /\ Float.trunc quotient = 60000 / batch_size
    /\ train epochs batch_size initial_world = Ok (tt, w)
    /\ List.map kind_of (trace w)
       = KSetTrainable 1 false
         :: flat_map (epoch_kinds 1 2 (60000 / batch_size))
                     (py_range 1 (epochs + 1))
    /\ (forall e,
          steps_on 1 (epoch_kinds 1 2 (60000 / batch_size) e)
          = Z.to_nat (60000 / batch_size)
          /\ steps_on 2 (epoch_kinds 1 2 (60000 / batch_size) e)
             = Z.to_nat (60000 / batch_size))
    /\ steps_on 1 (List.map kind_of (trace w))
       = (Z.to_nat epochs * Z.to_nat (60000 / batch_size))%nat
    /\ (batch_size = 128 -> 60000 / batch_size = 468)
    /\ (forall n, 0 <= n < 2 ^ 53 ->
          exists q, py_true_divide n batch_size = Ok q
                    /\ Float.trunc q = n / batch_size).
Proof.
  intros Hb.
  pose proof (loaded_shape x_train y_train x_test y_test loaded) as Hx.
  rewrite Hx. cbn [hd].
  destruct (train_spec x_train y_train x_test y_test loaded epochs batch_size
                       ltac:(lia))
    as (q & w & Eq & Hq & _ & E & _ & T).
  specialize (Hq Hb). rewrite Hq in T.
  exists q, w.
  split; [reflexivity|]. split; [exact Eq|]. split; [exact Hq|].
  split; [exact E|]. split; [exact T|]. split.
  - intros e. rewrite !steps_on_epoch. cbn. lia.
  - split.
    { rewrite T, steps_on_run. cbn. lia. }
    split; [intros ->; reflexivity|].
    intros n Hn. apply py_true_divide_floor; lia.
Qed.

(** C9: with [epochs = 0] the loop body never runs.  The call returns
    normally, in the world that the construction of the networks left: no
    optimizer step has been taken, no weight has been written after its
    initialisation, nothing has been printed and no figure saved. *)
Theorem train_zero_epochs (batch_size : Z) :
  batch_size <> 0 ->
  exists w0,
    build_networks initial_world = Ok (the_networks, w0)
    /\ train 0 batch_size initial_world = Ok (tt, w0)
    /\ List.map kind_of (trace w0) = [KSetTrainable 1 false]
    /\ (forall u, steps_on u (List.map kind_of (trace w0)) = 0%nat)
    /\ saved_figures (List.map kind_of (trace w0)) = []
    /\ optimizers w0 = [Adam (py_float 2 10000) (py_float 5 10) 0].
Proof.
  intros Hb.
  destruct (train_no_epoch x_train y_train x_test y_test loaded batch_size Hb)
    as (w0 & E0 & E & T0 & O0).
  exists w0. split; [exact E0|]. split; [exact E|].
  rewrite T0. repeat split; auto.
Qed.

End Runs.

(* ================================================================== *)
(** ** The theorems at work on the small backend *)

Lemma Demo_built_ready (p : freeze_policy) :
  @ready (Demo.backend p) (Demo.built p).
Proof.
  destruct (@build_networks_ok (Demo.backend p)) as (w0 & E0 & R0 & _).
  unfold Demo.built. rewrite E0. exact R0.
Qed.

Lemma Demo_loaded (p : freeze_policy) :
  load_minst_data (@mnist_load_data (Demo.backend p))
  = Ok (Demo.x_train, Demo.labels 60000, Demo.images 10000, Demo.labels 10000).
Proof. exact Demo_load. Qed.

Lemma discriminator_batch_and_labels_witness :
  exists X y_dis w1,
    @discriminator_phase (Demo.backend AtCompile) Demo.x_train 128
                         the_generator the_discriminator (Demo.built AtCompile)
    = Ok (tt, w1)
    /\ trace w1 = trace (Demo.built AtCompile)
                  ++ [SetTrainable 1 true; TrainOnBatch 1 X y_dis]
    /\ shape X = [256; 784]
    /\ shape y_dis = [256]
    /\ item y_dis [0] = py_float 9 10
    /\ item y_dis [127] = py_float 9 10
    /\ item y_dis [128] = Float.zero
    /\ item y_dis [255] = Float.zero.
Proof.
  destruct (@discriminator_batch_and_labels (Demo.backend AtCompile)
              Demo.x_train 60000 128 (Demo.built AtCompile)
              eq_refl ltac:(lia) ltac:(lia)
              (proj1 (Demo_built_ready AtCompile)))
    as (ib & gi & X & y & w1 & E & T & _ & (HX & _) & _ & H128 & _).
  destruct (H128 eq_refl) as (Hs & H9 & H0).
  exists X, y, w1.
  split; [exact E|]. split; [exact T|]. split; [exact HX|].
  split; [exact Hs|].
  split; [apply H9; lia|]. split; [apply H9; lia|].
  split; apply H0; lia.
Defined.

Lemma checkpoint_schedule_witness :
  exists w,
    @train (Demo.backend AtCompile) 45 128 initial_world = Ok (tt, w)
    /\ saved_figures (List.map kind_of (trace w))
       = [ "gan_generated_image_epoch_1.png";
           "gan_generated_image_epoch_20.png";
           "gan_generated_image_epoch_40.png" ]%string.
Proof.
  destruct (@checkpoint_schedule (Demo.backend AtCompile) Demo.x_train
              (Demo.labels 60000) (Demo.images 10000) (Demo.labels 10000)
              (Demo_loaded AtCompile) 45 128 ltac:(lia))
    as (w & E & _ & _ & _ & H45).
  exists w. split; [exact E | exact (H45 eq_refl)].
Defined.

Lemma trainable_flag_discipline_witness :
  exists w1 w2,
    @train_batch (Demo.backend AtCall) Demo.x_train 128 the_generator
                 the_discriminator the_gan (Demo.built AtCall) = Ok (tt, w2)
    /\ (forall k, In k (weights_of the_generator) ->
          weights w1 k = weights (Demo.built AtCall) k)
    /\ (forall k, In k (weights_of the_discriminator) ->
          weights w2 k = weights w1 k)
    /\ ready w2.
Proof.
  destruct (@trainable_flag_discipline (Demo.backend AtCall) Demo.x_train
              (Demo.labels 60000) (Demo.images 10000) (Demo.labels 10000)
              (Demo_loaded AtCall) 1 128 ltac:(lia)) as (_ & _ & H).
  destruct (H (Demo.built AtCall) (Demo_built_ready AtCall))
    as (X & y & nz & yg & w1 & w2 & _ & _ & E & _ & _ & _ & _ & F1 & _ & F2
        & _ & R).
  exists w1, w2. auto.
Defined.

Lemma batches_per_epoch_witness :
  exists w,
    @train (Demo.backend AtCompile) 400 128 initial_world = Ok (tt, w)
    /\ List.map kind_of (trace w)
       = KSetTrainable 1 false
         :: flat_map (epoch_kinds 1 2 468) (py_range 1 401)
    /\ steps_on 1 (epoch_kinds 1 2 468 1) = 468%nat.
Proof.
  destruct (@batches_per_epoch (Demo.backend AtCompile) Demo.x_train
              (Demo.labels 60000) (Demo.images 10000) (Demo.labels 10000)
              (Demo_loaded AtCompile) 400 128 ltac:(lia))
    as (q & w & _ & _ & _ & E & T & S & _).
  exists w. split; [exact E|]. split; [exact T|]. exact (proj1 (S 1)).
Defined.

Lemma train_zero_epochs_witness :
  exists w0,
    @train (Demo.backend AtCompile) 0 128 initial_world = Ok (tt, w0)
    /\ List.map kind_of (trace w0) = [KSetTrainable 1 false].
Proof.
  destruct (@train_zero_epochs (Demo.backend AtCompile) Demo.x_train
              (Demo.labels 60000) (Demo.images 10000) (Demo.labels 10000)
              (Demo_loaded AtCompile) 128 ltac:(lia))
    as (w0 & _ & E & T & _).
  exists w0. auto.
Defined.

(* ================================================================== *)
(** ** More on dataset loading *)

Lemma unravel_image (i r c : Z) :
  0 <= r < 28 -> 0 <= c < 28 ->
  unravel [60000; 28; 28] (ravel [60000; 784] [i; 28 * r + c]) = [i; r; c].
Proof.
  intros Hr Hc. cbn [ravel unravel size fold_right].
  replace (i * (784 * 1) + ((28 * r + c) * 1 + 0)) with (i * 784 + (28 * r + c))
    by lia.
  change (28 * (28 * 1)) with 784. change (28 * 1) with 28.
  assert (E1 : (i * 784 + (28 * r + c)) / 784 = i)
    by (symmetry; apply Z.div_unique with (r := 28 * r + c); lia).
  assert (E2 : (i * 784 + (28 * r + c)) mod 784 = 28 * r + c)
    by (symmetry; apply Z.mod_unique with (q := i); lia).
  rewrite E1, E2.
  assert (E3 : (28 * r + c) / 28 = r)
    by (symmetry; apply Z.div_unique with (r := c); lia).
  assert (E4 : (28 * r + c) mod 28 = c)
    by (symmetry; apply Z.mod_unique with (q := r); lia).
  rewrite E3, E4, Z.div_1_r. reflexivity.
Qed.

(** X1: flattening keeps every pixel and its place.  When the provider's
    training images have shape (60000, 28, 28), component [28 * r + c] of
    sample [i] is the normalized pixel at row [r], column [c] of image
    [i]. *)
Theorem load_minst_data_layout (mnist : mnist_splits)
        (x_train : ndarray Float.t) (y_train x_test y_test : ndarray Z) :
  load_minst_data mnist = Ok (x_train, y_train, x_test, y_test) ->
  shape (fst (fst mnist)) = [60000; 28; 28] ->
  forall i r c,
    0 <= i < 60000 -> 0 <= r < 28 -> 0 <= c < 28 ->
    item x_train [i; 28 * r + c] = normalize (item (fst (fst mnist)) [i; r; c]).
Proof.
  intros Hload Hshape i r c Hi Hr Hc.
  apply load_minst_data_inv in Hload as (Hre & _).
  apply reshape_inv in Hre as (_ & _ & Hitem).
  rewrite Hitem. cbn [Numpy.map item shape]. rewrite Hshape.
  rewrite unravel_image by assumption. reflexivity.
Qed.

Lemma load_minst_data_layout_witness :
  item Demo.x_train [59999; 28 * 27 + 27]
  = normalize (item (Demo.images 60000) [59999; 27; 27]).
Proof.
  apply (load_minst_data_layout Demo.mnist Demo.x_train (Demo.labels 60000)
           (Demo.images 10000) (Demo.labels 10000) Demo_load eq_refl);
    lia.
Defined.

(** X2: loading succeeds exactly on training images of 60000 * 784 =
    47040000 pixels, whatever their shape; on any other number of pixels it
    raises ValueError. *)
Theorem load_minst_data_size (mnist : mnist_splits) :
  (size (shape (fst (fst mnist))) = 47040000
   /\ exists x_train,
        load_minst_data mnist
        = Ok (x_train, snd (fst mnist), fst (snd mnist), snd (snd mnist))
        /\ shape x_train = [60000; 784])
  \/ (size (shape (fst (fst mnist))) <> 47040000
      /\ load_minst_data mnist = Raise ValueError).
Proof.
  destruct mnist as [[xtr ytr] [xte yte]]. cbn [fst snd].
  unfold load_minst_data, reshape. cbn [Numpy.map shape].
  change (size [60000; 784]) with 47040000.
  destruct (Z.eqb_spec 47040000 (size (shape xtr))) as [E|E].
  - left. split; [auto|]. eexists. split; reflexivity.
  - right. split; [congruence | reflexivity].
Qed.

Lemma normalize_lt_next_bytes : forallb normalize_lt_next (py_range 0 255) = true.
Proof. vm_compute. reflexivity. Qed.

Lemma normalize_step (v : Z) :
  0 <= v < 255 ->
  (Float.to_Q (normalize v) < Float.to_Q (normalize (v + 1)))%Q.
Proof.
  intros Hv.
  assert (Hin : In v (py_range 0 255)) by (apply In_py_range; lia).
  pose proof (proj1 (forallb_forall _ _) normalize_lt_next_bytes v Hin) as Hok.
  unfold normalize_lt_next in Hok. apply negb_true_iff in Hok.
  apply Qnot_le_lt. intros H. apply Qle_bool_iff in H. congruence.
Qed.

Lemma normalize_lt (v1 v2 : Z) :
  0 <= v1 -> v1 < v2 -> v2 <= 255 ->
  (Float.to_Q (normalize v1) < Float.to_Q (normalize v2))%Q.
Proof.
  intros H1 H12 H2.
  replace v2 with (v1 + 1 + Z.of_nat (Z.to_nat (v2 - v1 - 1))) in * by lia.
  induction (Z.to_nat (v2 - v1 - 1)) as [|n IH].
  - rewrite Z.add_0_r. apply normalize_step. lia.
  - eapply Qlt_trans; [apply IH; lia|].
    replace (v1 + 1 + Z.of_nat (S n)) with (v1 + 1 + Z.of_nat n + 1) by lia.
    apply normalize_step. lia.
Qed.

(** X3: normalization keeps the order of the byte values strictly, in both
    directions: a brighter pixel gets a larger float and a larger float
    comes from a brighter pixel.  So distinct pixels stay distinct and the
    raw image can be recovered from the loaded one. *)
Theorem normalize_increasing (v1 v2 : Z) :
  0 <= v1 <= 255 -> 0 <= v2 <= 255 ->
  (v1 < v2 <-> (Float.to_Q (normalize v1) < Float.to_Q (normalize v2))%Q)
  /\ (normalize v1 = normalize v2 -> v1 = v2).
Proof.
  intros H1 H2.
  assert (Hiff : v1 < v2
                 <-> (Float.to_Q (normalize v1) < Float.to_Q (normalize v2))%Q).
  { split; [intros H; apply normalize_lt; lia|].
    intros H. destruct (Z_lt_le_dec v1 v2) as [|Hge]; [assumption|].
    exfalso. destruct (Z.eq_dec v1 v2) as [->|Hne].
    - exact (Qlt_irrefl _ H).
    - apply (Qlt_irrefl (Float.to_Q (normalize v1))).
      eapply Qlt_trans; [exact H | apply normalize_lt; lia]. }
  split; [exact Hiff|].
  intros E. destruct (Z.lt_total v1 v2) as [H | [H | H]]; [|exact H|].
  - exfalso. apply normalize_lt in H; try lia.
    rewrite E in H. exact (Qlt_irrefl _ H).
  - exfalso. apply normalize_lt in H; try lia.
    rewrite E in H. exact (Qlt_irrefl _ H).
Qed.

Lemma normalize_increasing_witness :
  (0 < 255 <-> (Float.to_Q (normalize 0) < Float.to_Q (normalize 255))%Q)
  /\ (normalize 0 = normalize 255 -> 0 = 255).
Proof. apply (normalize_increasing 0 255); lia. Defined.

Lemma normalize_mirrored_bytes : forallb normalize_mirrored (py_range 0 256) = true.
Proof. vm_compute. reflexivity. Qed.

(** X4: normalization is odd about the middle of the byte range: the
    mirrored byte [255 - v] goes to the opposite float, bytes up to 127 go
    below zero and bytes from 128 on go above, so no pixel is mapped to
    0. *)
Theorem normalize_odd (v : Z) :
  0 <= v <= 255 ->
  (Float.to_Q (normalize (255 - v)) == - Float.to_Q (normalize v))%Q
  /\ (v <= 127 -> (Float.to_Q (normalize v) < 0)%Q)
  /\ (128 <= v -> (0 < Float.to_Q (normalize v))%Q).
Proof.
  intros Hv. split.
  - assert (Hin : In v (py_range 0 256)) by (apply In_py_range; lia).
    pose proof (proj1 (forallb_forall _ _) normalize_mirrored_bytes v Hin) as Hok.
    apply Qeq_bool_iff in Hok. exact Hok.
  - assert (Lo : (Float.to_Q (normalize 127) < 0)%Q) by (vm_compute; reflexivity).
    assert (Hi : (0 < Float.to_Q (normalize 128))%Q) by (vm_compute; reflexivity).
    split; intros H.
    + destruct (Z.eq_dec v 127) as [->|]; [exact Lo|].
      eapply Qlt_trans; [apply (normalize_lt v 127); lia | exact Lo].
    + destruct (Z.eq_dec v 128) as [->|]; [exact Hi|].
      eapply Qlt_trans; [exact Hi | apply (normalize_lt 128 v); lia].
Qed.

Lemma normalize_odd_witness :
  (Float.to_Q (normalize (255 - 3)) == - Float.to_Q (normalize 3))%Q
  /\ (3 <= 127 -> (Float.to_Q (normalize 3) < 0)%Q)
  /\ (128 <= 3 -> (0 < Float.to_Q (normalize 3))%Q).
Proof. apply (normalize_odd 3); lia. Defined.

(* ================================================================== *)
(** ** The state a run leaves *)

Section StateFacts.

Context {B : Backend}.

Lemma same_outcome {A} (r : result A) (a b : A) : r = Ok a -> r = Ok b -> a = b.
Proof. intros -> H. injection H. auto. Qed.

(** The world after [plot_generated_images], for any model of the right
    widths. *)
Lemma plot_generated_images_eval (e : Z) (m : model) (w : world) :
  input_width_of m = Some random_dim -> output_width_of m = Some 784 ->
  plot_generated_images e m w
  = Ok (tt, World (rng_next (np_random w)) (weights w) (next_weight w)
                  (optimizers w) (next_uid w) (trainable w) (compiled w)
                  (hidden w) (trace w ++ [Savefig (figure_name e)])).
Proof.
  intros Hi Ho. unfold plot_generated_images.
  rewrite (bind_ok _ _ _ _ _ (np_random_normal_ok 100 random_dim w
                                ltac:(lia) ltac:(unfold random_dim; lia))).
  erewrite bind_ok; [|apply (predict_ok m _ 100 random_dim 784); auto].
  erewrite bind_ok; [|apply lift_ok; reflexivity].
  reflexivity.
Qed.

Variables (x_train : ndarray Float.t) (N batch_size : Z).
Hypothesis x_train_shape : shape x_train = [N; 784].
Hypothesis N_pos : 0 < N.
Hypothesis batch_size_pos : 1 <= batch_size.

(** The fields of the world after the discriminator's phase. *)
Lemma discriminator_phase_eval (w : world) :
  wired w ->
  exists X y_dis opt w1,
    discriminator_phase x_train batch_size the_generator the_discriminator w
    = Ok (tt, w1)
    /\ nth_error (optimizers w) 0 = Some opt
    /\ np_random w1 = rng_next (rng_next (np_random w))
    /\ (forall k, weights w1 k
                  = if mem k (weights_of the_discriminator)
                    then Some (fst (fit opt (hidden w) (weights w)
                                        the_discriminator X y_dis) k)
                    else weights w k)
    /\ next_weight w1 = next_weight w
    /\ optimizers w1 = step_optimizer (optimizers w) 0
    /\ next_uid w1 = next_uid w
    /\ compiled w1 = compiled w
    /\ hidden w1 = snd (fit opt (hidden w) (weights w) the_discriminator X y_dis).
Proof.
  intros Hw. destruct Hw as [Hg Hd Ha [F0 F2] [n Hopt]].
  unfold discriminator_phase.
  rewrite (bind_ok _ _ _ _ _ (np_random_normal_ok batch_size random_dim w
                                ltac:(lia) ltac:(unfold random_dim; lia))).
  set (noise := Array [batch_size; random_dim] _).
  rewrite x_train_shape. cbn [hd].
  set (w_a := set_np_random (rng_next (np_random w)) w).
  rewrite (bind_ok _ _ _ _ _ (np_random_randint_ok 0 N batch_size w_a
                                N_pos ltac:(lia))).
  set (index := Array [batch_size] _).
  set (w_b := set_np_random _ w_a).
  assert (Hidx : forall i, 0 <= item index [i] < N).
  { intros i. unfold index. cbn [item hd].
    pose proof (Z.mod_pos_bound (rng_integer (np_random w_a) i) (N - 0)
                  ltac:(lia)). lia. }
  erewrite bind_ok;
    [|apply lift_ok;
      apply (take_ok x_train index N batch_size [784] x_train_shape eq_refl);
      intros i _; specialize (Hidx i); lia].
  set (image_batch := Array (batch_size :: [784]) _).
  erewrite bind_ok;
    [|apply (predict_ok the_generator noise batch_size random_dim 784);
      reflexivity].
  set (generated_images := Array [batch_size; 784] _).
  erewrite bind_ok;
    [|apply lift_ok;
      apply (concatenate_ok image_batch generated_images batch_size
                            batch_size [784]); reflexivity].
  set (X := Array (batch_size + batch_size :: [784]) _).
  erewrite bind_ok; [|apply lift_ok; apply full_ok; lia].
  set (y_dis := set_prefix _ batch_size (py_float 9 10)).
  rewrite (bind_ok _ _ _ _ _ (set_trainable_ok the_discriminator true w_b)).
  set (w_c := World _ _ _ _ _ _ _ _ _).
  erewrite (train_on_batch_ok the_discriminator X y_dis w_c 0
              (weights_of the_discriminator) (2 * batch_size) 784);
    [| exact Hd | unfold X; cbn [shape]; f_equal; lia | reflexivity | reflexivity
     | unfold w_c, w_b, w_a; cbn [optimizers set_np_random]; rewrite Hopt;
       reflexivity].
  exists X, y_dis. eexists. eexists.
  split; [reflexivity|].
  split; [rewrite Hopt; reflexivity|].
  split; [reflexivity|].
  split; [|repeat split; reflexivity].
  intros k. cbn [weights].
  rewrite written_discriminator by reflexivity. reflexivity.
Qed.

(** The fields of the world after the generator's phase. *)
Lemma generator_phase_eval (w : world) :
  wired w ->
  exists noise y_gen opt w2,
    generator_phase batch_size the_discriminator the_gan w = Ok (tt, w2)
    /\ nth_error (optimizers w) 0 = Some opt
    /\ np_random w2 = rng_next (np_random w)
    /\ (forall k, weights w2 k
                  = if mem k (weights_of the_generator)
                    then Some (fst (fit opt (hidden w) (weights w)
                                        the_gan noise y_gen) k)
                    else weights w k)
    /\ next_weight w2 = next_weight w
    /\ optimizers w2 = step_optimizer (optimizers w) 0
    /\ next_uid w2 = next_uid w
    /\ compiled w2 = compiled w
    /\ hidden w2 = snd (fit opt (hidden w) (weights w) the_gan noise y_gen).
Proof.
  intros Hw. destruct Hw as [Hg Hd Ha [F0 F2] [n Hopt]].
  unfold generator_phase.
  rewrite (bind_ok _ _ _ _ _ (np_random_normal_ok batch_size random_dim w
                                ltac:(lia) ltac:(unfold random_dim; lia))).
  set (noise := Array [batch_size; random_dim] _).
  set (w_a := set_np_random (rng_next (np_random w)) w).
  erewrite bind_ok; [|apply lift_ok; apply full_ok; lia].
  set (y_gen := Array [batch_size] _).
  rewrite (bind_ok _ _ _ _ _ (set_trainable_ok the_discriminator false w_a)).
  set (w_b := World _ _ _ _ _ _ _ _ _).
  erewrite (train_on_batch_ok the_gan noise y_gen w_b 0
              (weights_of the_generator) batch_size random_dim);
    [| exact Ha | reflexivity | reflexivity | reflexivity
     | unfold w_b, w_a; cbn [optimizers set_np_random]; rewrite Hopt;
       reflexivity].
  exists noise, y_gen. eexists. eexists.
  split; [reflexivity|].
  split; [rewrite Hopt; reflexivity|].
  split; [reflexivity|].
  split; [|repeat split; reflexivity].
  intros k. cbn [weights].
  rewrite written_gan by (unfold w_b, w_a; cbn; auto). reflexivity.
Qed.

End StateFacts.

Section ProgressFacts.

Context {B : Backend}.

Lemma rng_after_S (n : nat) (g : rng) : rng_after (S n) g = rng_next (rng_after n g).
Proof. reflexivity. Qed.

Lemma steps_on_snoc (u : nat) (ks : list kind) (k : kind) :
  steps_on u (ks ++ [k]) = (steps_on u ks + if is_step u k then 1 else 0)%nat.
Proof.
  rewrite steps_on_app. unfold steps_on at 2. cbn [filter].
  destruct (is_step u k); reflexivity.
Qed.

(** Building the networks: sixteen tensors, three objects, one optimizer,
    and numpy's generator untouched. *)
Lemma build_networks_world :
  exists w0,
    build_networks initial_world = Ok (the_networks, w0)
    /\ progress w0 w0
    /\ trace w0 = [SetTrainable 1 false]
    /\ next_weight w0 = 16%nat
    /\ (forall k, weights w0 k = None <-> (16 <= k)%nat)
    /\ next_uid w0 = 3%nat
    /\ np_random w0 = rng_seed 10
    /\ hidden w0 = session_start.
Proof.
  eexists. split; [cbv - [py_float]; reflexivity|].
  assert (Hall : forall k : nat,
             In k (weights_of the_generator ++ weights_of the_discriminator)
             <-> (k < 16)%nat).
  { intros k. cbn. lia. }
  split.
  { constructor.
    - split; [|reflexivity].
      constructor; cbn [compiled trainable optimizers]; try reflexivity.
      + split; reflexivity.
      + exists 0. reflexivity.
    - split; [reflexivity|]. split; [|reflexivity].
      intros k Hk. apply Hall in Hk. cbn [weights].
      do 16 (destruct k as [|k]; [cbv; discriminate|]). lia.
    - split; reflexivity.
    - reflexivity.
    - reflexivity.
    - intros _. split; reflexivity. }
  split; [reflexivity|]. split; [reflexivity|]. split; [|repeat split].
  intros k. cbn [weights].
  do 16 (destruct k as [|k]; [cbv; split; [discriminate | lia]|]).
  cbv. split; [lia | reflexivity].
Qed.

Lemma progress_print (w0 w : world) (e : Z) :
  progress w0 w ->
  exists w', emit (Print e) w = Ok (tt, w')
             /\ progress w0 w'
             /\ List.map kind_of (trace w')
                = List.map kind_of (trace w) ++ [KPrint e].
Proof.
  intros [R T O St D I]. eexists. split; [reflexivity|].
  assert (K : List.map kind_of (trace w ++ [Print e])
              = List.map kind_of (trace w) ++ [KPrint e])
    by (rewrite map_app; reflexivity).
  split; [|exact K].
  constructor; cbn [next_weight weights next_uid compiled optimizers np_random
                    hidden trace]; try rewrite K;
    try rewrite !steps_on_snoc; try rewrite saved_figures_app;
    cbn [is_step saved_figures flat_map]; rewrite ?Nat.add_0_r, ?app_nil_r; auto.
  destruct R as [[Hg Hd Ha HF HO] Hf]. split; [constructor|]; assumption.
Qed.

Lemma progress_plot (w0 w : world) (e : Z) :
  progress w0 w ->
  exists w', plot_generated_images e the_generator w = Ok (tt, w')
             /\ progress w0 w'
             /\ List.map kind_of (trace w')
                = List.map kind_of (trace w) ++ [KSavefig (figure_name e)].
Proof.
  intros [R T O St D I]. eexists.
  split; [apply plot_generated_images_eval; reflexivity|].
  assert (K : List.map kind_of (trace w ++ [Savefig (figure_name e)])
              = List.map kind_of (trace w) ++ [KSavefig (figure_name e)])
    by (rewrite map_app; reflexivity).
  split; [|exact K].
  constructor; cbn [next_weight weights next_uid compiled optimizers np_random
                    hidden trace]; try rewrite K;
    try rewrite !steps_on_snoc; try rewrite saved_figures_app;
    cbn [is_step saved_figures flat_map]; rewrite ?Nat.add_0_r; auto.
  - destruct R as [[Hg Hd Ha HF HO] Hf]. split; [constructor|]; assumption.
  - rewrite D, length_app. cbn [List.length app].
    rewrite <- rng_after_S. f_equal. lia.
Qed.

Variables (x_train : ndarray Float.t) (N batch_size : Z).
Hypothesis x_train_shape : shape x_train = [N; 784].
Hypothesis N_pos : 0 < N.
Hypothesis batch_size_pos : 1 <= batch_size.

Lemma progress_batch (w0 w : world) :
  progress w0 w ->
  exists w2,
    train_batch x_train batch_size the_generator the_discriminator the_gan w
    = Ok (tt, w2)
    /\ progress w0 w2
    /\ List.map kind_of (trace w2)
       = List.map kind_of (trace w) ++ batch_kinds 1 2.
Proof.
  intros [R T O Sw D I].
  destruct (train_batch_spec x_train N batch_size x_train_shape N_pos
              batch_size_pos w R) as (w2 & E & R2 & K).
  exists w2. split; [exact E|]. split; [|exact K].
  destruct R as [Hw Hf].
  destruct (discriminator_phase_eval x_train N batch_size x_train_shape N_pos
              batch_size_pos w Hw)
    as (X & y & o1 & w1 & E1 & _ & G1 & W1 & N1 & O1 & U1 & C1 & _).
  destruct (discriminator_phase_spec x_train N batch_size x_train_shape N_pos
              batch_size_pos w Hw) as (_ & _ & _ & _ & w1' & E1' & [Hw1 _] & _).
  assert (w1' = w1) by (eapply same_outcome in E1'; [|exact E1]; congruence).
  subst w1'.
  destruct (generator_phase_eval batch_size batch_size_pos w1 Hw1)
    as (nz & yg & o2 & w2' & E2 & _ & G2 & W2 & N2 & O2 & U2 & C2 & _).
  assert (w2' = w2).
  { unfold train_batch in E. rewrite (bind_ok _ _ _ _ _ E1) in E.
    eapply same_outcome in E; [|exact E2]. congruence. }
  subst w2'.
  destruct T as (Tn & Ta & Tf). destruct O as (Ou & Oc).
  assert (St : forall u, steps_on u (List.map kind_of (trace w2))
                         = (steps_on u (List.map kind_of (trace w))
                            + steps_on u (batch_kinds 1 2))%nat)
    by (intros u; rewrite K, steps_on_app; reflexivity).
  assert (Fg : saved_figures (List.map kind_of (trace w2))
               = saved_figures (List.map kind_of (trace w)))
    by (rewrite K, saved_figures_app; cbn; apply app_nil_r).
  constructor.
  - exact R2.
  - split; [congruence|]. split.
    + intros k Hk. rewrite W2.
      destruct (mem k (weights_of the_generator)); [discriminate|].
      rewrite W1.
      destruct (mem k (weights_of the_discriminator)); [discriminate|].
      apply Ta. exact Hk.
    + intros k Hk. rewrite W2.
      destruct (mem k (weights_of the_generator)) eqn:Mg.
      { exfalso. apply Hk. apply in_or_app. left. apply mem_In. exact Mg. }
      rewrite W1.
      destruct (mem k (weights_of the_discriminator)) eqn:Md.
      { exfalso. apply Hk. apply in_or_app. right. apply mem_In. exact Md. }
      apply Tf. exact Hk.
  - split; [congruence|]. intros u. rewrite C2, C1. apply Oc.
  - rewrite O2, O1, Sw, !St. cbn [step_optimizer batch_kinds steps_on filter
                                 is_step Nat.eqb List.length].
    do 2 f_equal. lia.
  - rewrite G2, G1, D, !St, Fg. cbn [batch_kinds steps_on filter is_step
                                      Nat.eqb List.length].
    rewrite <- !rng_after_S. f_equal. lia.
  - rewrite !St. cbn [batch_kinds steps_on filter is_step Nat.eqb List.length].
    intros H. lia.
Qed.

End ProgressFacts.

Section RunProgress.

Context {B : Backend}.

Lemma train_epoch_progress (x_train : ndarray Float.t)
      (N batch_size batch_count : Z) (e : Z) (w0 w : world) :
  shape x_train = [N; 784] -> 0 < N ->
  1 <= batch_size \/ batch_count <= 0 ->
  progress w0 w ->
  exists w',
    train_epoch x_train batch_size batch_count
                the_generator the_discriminator the_gan e w = Ok (tt, w')
    /\ progress w0 w'
    /\ List.map kind_of (trace w')
       = List.map kind_of (trace w) ++ epoch_kinds 1 2 batch_count e.
Proof.
  intros Hx HN Hb Hw. unfold train_epoch.
  destruct (progress_print w0 w e Hw) as (w_a & Ea & Pa & Ka).
  rewrite (bind_ok _ _ _ _ _ Ea).
  assert (Hloop :
            exists w_b,
              for_ (py_range 0 batch_count)
                   (fun _ : Z => train_batch x_train batch_size the_generator
                                             the_discriminator the_gan) w_a
              = Ok (tt, w_b)
              /\ progress w0 w_b
              /\ List.map kind_of (trace w_b)
                 = List.map kind_of (trace w_a)
                   ++ List.concat (repeat (batch_kinds 1 2)
                                          (Z.to_nat batch_count))).
  { destruct Hb as [Hb|Hb].
    - destruct (for_spec
                  (fun _ : Z => train_batch x_train batch_size the_generator
                                            the_discriminator the_gan)
                  (progress w0) (fun _ => batch_kinds 1 2)
                  (fun _ w1 H1 =>
                     progress_batch x_train N batch_size Hx HN Hb w0 w1 H1)
                  (py_range 0 batch_count) w_a Pa)
        as (w_b & Eb & Rb & Tb).
      rewrite flat_map_const, length_py_range, Z.sub_0_r in Tb.
      exists w_b. auto.
    - exists w_a. unfold py_range.
      replace (Z.to_nat (batch_count - 0)) with 0%nat by lia.
      replace (Z.to_nat batch_count) with 0%nat by lia.
      cbn. rewrite app_nil_r. auto. }
  destruct Hloop as (w_b & Eb & Pb & Kb).
  rewrite (bind_ok _ _ _ _ _ Eb).
  unfold epoch_kinds. destruct (checkpoint e).
  - destruct (progress_plot w0 w_b e Pb) as (w_c & Ec & Pc & Kc).
    exists w_c. split; [exact Ec|]. split; [exact Pc|].
    rewrite Kc, Kb, Ka, <- !app_assoc. reflexivity.
  - exists w_b. split; [reflexivity|]. split; [exact Pb|].
    rewrite Kb, Ka, <- !app_assoc, app_nil_r. reflexivity.
Qed.

Variables (x_train : ndarray Float.t) (y_train x_test y_test : ndarray Z).
Hypothesis loaded :
  load_minst_data mnist_load_data = Ok (x_train, y_train, x_test, y_test).

(** A run, with all that is known of the world it leaves. *)
Lemma train_progress (epochs batch_size : Z) :
  batch_size <> 0 ->
  exists quotient w0 w,
    py_true_divide 60000 batch_size = Ok quotient
    /\ (1 <= batch_size -> Float.trunc quotient = 60000 / batch_size)
    /\ (batch_size < 0 -> Float.trunc quotient <= 0)
    /\ build_networks initial_world = Ok (the_networks, w0)
    /\ (next_weight w0 = 16%nat
        /\ (forall k, weights w0 k = None <-> (16 <= k)%nat)
        /\ next_uid w0 = 3%nat
        /\ np_random w0 = rng_seed 10
        /\ hidden w0 = session_start)
    /\ train epochs batch_size initial_world = Ok (tt, w)
    /\ progress w0 w
    /\ List.map kind_of (trace w)
       = run_kinds 1 2 (Float.trunc quotient) epochs.
Proof.
  intros Hb.
  assert (Hq : exists q,
             py_true_divide 60000 batch_size = Ok q
             /\ (1 <= batch_size -> Float.trunc q = 60000 / batch_size)
             /\ (batch_size < 0 -> Float.trunc q <= 0)).
  { destruct (Z_lt_le_dec 0 batch_size) as [Hpos|Hneg].
    - destruct (py_true_divide_floor 60000 batch_size
                  ltac:(split; [lia | reflexivity]) Hpos) as (q & Eq & Hq).
      exists q. split; [exact Eq|]. split; [auto | lia].
    - destruct (py_true_divide_ok 60000 batch_size
                  ltac:(vm_compute; reflexivity) Hb) as (q & Eq & Hq).
      exists q. split; [exact Eq|]. split; [lia|]. intros H. apply Hq; lia. }
  destruct Hq as (q & Eq & Hpos & Hneg).
  destruct build_networks_world as (w0 & E0 & P0 & T0 & F0).
  exists q, w0. unfold train.
  rewrite (bind_ok _ _ _ _ _ (lift_ok _ _ _ loaded)).
  cbv beta iota.
  rewrite (loaded_shape x_train y_train x_test y_test loaded). cbn [hd].
  rewrite (bind_ok _ _ _ _ _ (lift_ok _ _ _ Eq)).
  rewrite (bind_ok _ _ _ _ _ E0). cbn [generator discriminator gan the_networks].
  assert (Hb' : 1 <= batch_size \/ Float.trunc q <= 0) by lia.
  destruct (for_spec _ (progress w0) (epoch_kinds 1 2 (Float.trunc q))
              (fun e w1 H1 =>
                 train_epoch_progress x_train 60000 batch_size
                   (Float.trunc q) e w0 w1
                   (loaded_shape x_train y_train x_test y_test loaded)
                   ltac:(lia) Hb' H1)
              (py_range 1 (epochs + 1)) w0 P0) as (w & E & P & T).
  exists w. split; [exact Eq|]. split; [exact Hpos|]. split; [exact Hneg|].
  split; [exact E0|]. split; [exact F0|].
  split; [exact E|]. split; [exact P|].
  rewrite T, T0. reflexivity.
Qed.

End RunProgress.

(* ================================================================== *)
(** ** How a call of [train] ends *)

Section Outcome.

Context {B : Backend}.

(** X5: a call of [train] ends in one of three ways, decided before the
    first epoch: ValueError when the training images cannot be laid out as
    60000 rows of 784, ZeroDivisionError when they can and the batch size is
    0, and a normal return in every other case, whatever the number of
    epochs and the sign of the batch size. *)
Theorem train_outcome (epochs batch_size : Z) :
  match load_minst_data mnist_load_data with
  | Raise e =>
      e = ValueError /\ train epochs batch_size initial_world = Raise ValueError
  | Ok _ =>
      if batch_size =? 0
      then train epochs batch_size initial_world = Raise ZeroDivisionError
      else exists w, train epochs batch_size initial_world = Ok (tt, w)
  end.
Proof.
  destruct (load_minst_data mnist_load_data) as [[[[xtr ytr] xte] yte]|e] eqn:L.
  - destruct (Z.eqb_spec batch_size 0) as [->|Hb].
    + apply (train_zero_batch_size xtr ytr xte yte L).
    + destruct (train_spec xtr ytr xte yte L epochs batch_size Hb)
        as (q & w & _ & _ & _ & E & _).
      exists w. exact E.
  - assert (He : e = ValueError).
    { destruct mnist_load_data as [[a b] [c d]]. unfold load_minst_data in L.
      unfold reshape in L. destruct (_ =? _) in L; congruence. }
    subst e. split; [reflexivity|].
    unfold train. unfold bind at 1. unfold lift. rewrite L. reflexivity.
Qed.

End Outcome.

Section RunExtras.

Context {B : Backend}.

Variables (x_train : ndarray Float.t) (y_train x_test y_test : ndarray Z).
Hypothesis loaded :
  load_minst_data mnist_load_data = Ok (x_train, y_train, x_test, y_test).

(** X6: a batch size above the 60000 rows of the dataset, or a negative
    one, makes every epoch empty.  The call still returns normally and
    still saves its figures at the scheduled epochs, but no optimizer step
    is taken: the weights, the optimizer and the framework's own state are
    those that the construction of the networks left. *)
Theorem train_without_batches (epochs batch_size : Z) :
  60000 < batch_size \/ batch_size < 0 ->
  exists w0 w,
    build_networks initial_world = Ok (the_networks, w0)
    /\ train epochs batch_size initial_world = Ok (tt, w)
    /\ (forall u, steps_on u (List.map kind_of (trace w)) = 0%nat)
    /\ (forall k, weights w k = weights w0 k)
    /\ optimizers w = optimizers w0
    /\ hidden w = hidden w0
    /\ saved_figures (List.map kind_of (trace w))
       = List.map figure_name (filter checkpoint (py_range 1 (epochs + 1))).
Proof.
  intros Hb.
  destruct (train_progress x_train y_train x_test y_test loaded epochs
              batch_size ltac:(lia))
    as (q & w0 & w & _ & Hpos & Hneg & E0 & _ & E & P & K).
  assert (Hq : Z.to_nat (Float.trunc q) = 0%nat).
  { destruct Hb as [Hb|Hb].
    - rewrite Hpos by lia. rewrite Z.div_small by lia. reflexivity.
    - specialize (Hneg Hb). lia. }
  assert (St : forall u, steps_on u (List.map kind_of (trace w)) = 0%nat).
  { intros u. rewrite K, steps_on_run, Hq. lia. }
  exists w0, w. split; [exact E0|]. split; [exact E|]. split; [exact St|].
  destruct P as [_ _ _ Sw _ I].
  destruct (I ltac:(rewrite !St; reflexivity)) as [Iw Ih].
  split; [exact Iw|]. split.
  - rewrite Sw, !St.
    destruct build_networks_world as (w0'' & E0'' & [_ _ _ S0 _ _] & T0 & _).
    assert (w0'' = w0) by (eapply same_outcome in E0''; [|exact E0]; congruence).
    subst w0''. rewrite S0, T0. reflexivity.
  - split; [exact Ih|]. rewrite K. apply saved_figures_run.
Qed.

(** X7: the step counter of the one shared optimizer counts the steps of
    both models: after a run it stands at twice the number of batches
    processed, [2 * epochs * batch_count]. *)
Theorem shared_optimizer_counts_both (epochs batch_size : Z) :
  1 <= batch_size -> 0 <= epochs ->
  exists w,
    train epochs batch_size initial_world = Ok (tt, w)
    /\ optimizers w
       = [Adam (py_float 2 10000) (py_float 5 10)
               (2 * (epochs * (60000 / batch_size)))]
    /\ steps_on 1 (List.map kind_of (trace w))
       = Z.to_nat (epochs * (60000 / batch_size))
    /\ steps_on 2 (List.map kind_of (trace w))
       = Z.to_nat (epochs * (60000 / batch_size)).
Proof.
  intros Hb He.
  destruct (train_progress x_train y_train x_test y_test loaded epochs
              batch_size ltac:(lia))
    as (q & w0 & w & _ & Hpos & _ & _ & _ & E & P & K).
  specialize (Hpos Hb).
  assert (Hbc : 0 <= 60000 / batch_size) by (apply Z.div_pos; lia).
  assert (St : forall u, (u = 1 \/ u = 2)%nat ->
                 steps_on u (List.map kind_of (trace w))
                 = Z.to_nat (epochs * (60000 / batch_size))).
  { intros u Hu. rewrite K, steps_on_run, Hpos.
    destruct Hu as [-> | ->]; cbn [batch_kinds steps_on filter is_step Nat.eqb
                                   List.length]; nia. }
  exists w. split; [exact E|].
  destruct P as [_ _ _ Sw _ _].
  rewrite Sw, !St by auto.
  split; [do 2 f_equal; nia|]. split; reflexivity.
Qed.


(** X9: a run neither creates nor loses a tensor: the sixteen weight
    tensors of the two networks (a kernel and a bias for each of the eight
    dense layers) exist when it returns, and no other. *)
Theorem tensors_of_a_run (epochs batch_size : Z) :
  batch_size <> 0 ->
  exists w,
    train epochs batch_size initial_world = Ok (tt, w)
    /\ next_weight w = 16%nat
    /\ (forall k, weights w k = None <-> (16 <= k)%nat)
    /\ List.length (weights_of the_generator) = 8%nat
    /\ List.length (weights_of the_discriminator) = 8%nat
    /\ (forall k, In k (weights_of the_generator ++ weights_of the_discriminator)
                  <-> (k < 16)%nat).
Proof.
  intros Hb.
  destruct (train_progress x_train y_train x_test y_test loaded epochs
              batch_size Hb)
    as (q & w0 & w & _ & _ & _ & _ & (N0 & A0 & _) & E & P & _).
  assert (Hall : forall k : nat,
             In k (weights_of the_generator ++ weights_of the_discriminator)
             <-> (k < 16)%nat).
  { intros k. cbn. lia. }
  exists w. split; [exact E|].
  destruct P as [_ (Tn & Ta & Tf) _ _ _ _].
  split; [congruence|]. split; [|split; [reflexivity|split; [reflexivity|exact Hall]]].
  intros k. split.
  - intros Hk. destruct (le_lt_dec 16 k) as [|Hlt]; [assumption|].
    exfalso. apply (Ta k); [apply Hall; exact Hlt | exact Hk].
  - intros Hk. rewrite Tf by (rewrite Hall; lia). apply A0. exact Hk.
Qed.

(** X10: a run leaves the three models as the construction compiled them
    and leaves the discriminator's flag off: the discriminator still
    collects its own eight tensors, the composite network the generator's
    eight only, all on optimizer 0, and no model has been created or
    compiled again. *)
Theorem models_of_a_run (epochs batch_size : Z) :
  batch_size <> 0 ->
  exists w,
    train epochs batch_size initial_world = Ok (tt, w)
    /\ compiled w (uid_of the_generator) = Some (0%nat, weights_of the_generator)
    /\ compiled w (uid_of the_discriminator)
       = Some (0%nat, weights_of the_discriminator)
    /\ compiled w (uid_of the_gan) = Some (0%nat, weights_of the_generator)
    /\ (forall u, (3 <= u)%nat -> compiled w u = None)
    /\ next_uid w = 3%nat
    /\ trainable w (uid_of the_discriminator) = false
    /\ trainable w (uid_of the_generator) = true
    /\ trainable w (uid_of the_gan) = true.
Proof.
  intros Hb.
  destruct (train_progress x_train y_train x_test y_test loaded epochs
              batch_size Hb)
    as (q & w0 & w & _ & _ & _ & E0 & (_ & _ & U0 & _) & E & P & _).
  exists w. split; [exact E|].
  destruct P as [[[Hg Hd Ha [F0 F2] _] Hf] _ (Ou & Oc) _ _ _].
  cbn [uid_of the_generator the_discriminator the_gan].
  split; [exact Hg|]. split; [exact Hd|]. split; [exact Ha|].
  split; [|repeat split; congruence].
  intros u Hu. rewrite Oc.
  assert (C0 : forall u, (3 <= u)%nat -> compiled w0 u = None).
  { assert (G : exists w0', build_networks initial_world = Ok (the_networks, w0')
                            /\ forall u, (3 <= u)%nat -> compiled w0' u = None).
    { eexists. split; [cbv - [py_float]; reflexivity|].
      intros v Hv. cbn [compiled].
      do 3 (destruct v as [|v]; [lia|]). reflexivity. }
    destruct G as (w0' & E0' & C0').
    assert (w0' = w0) by (eapply same_outcome in E0'; [|exact E0]; congruence).
    subst w0'. exact C0'. }
  apply C0. exact Hu.
Qed.

(** X11: a number of epochs below 1, negative ones included, gives a run
    without any epoch: the call returns normally in the very world that the
    construction of the networks left, as [train(0, batch_size)] does, with
    nothing printed, trained or saved. *)
Theorem train_nonpositive_epochs (epochs batch_size : Z) :
  epochs <= 0 -> batch_size <> 0 ->
  exists w0,
    build_networks initial_world = Ok (the_networks, w0)
    /\ train epochs batch_size initial_world = Ok (tt, w0)
    /\ train epochs batch_size initial_world = train 0 batch_size initial_world
    /\ trace w0 = [SetTrainable 1 false].
Proof.
  intros He Hb.
  destruct (train_no_epoch x_train y_train x_test y_test loaded batch_size Hb)
    as (w0 & E0 & E & T & _).
  assert (Eq : train epochs batch_size initial_world
               = train 0 batch_size initial_world).
  { unfold train, py_range.
    replace (Z.to_nat (epochs + 1 - 1)) with (Z.to_nat (0 + 1 - 1)) by lia.
    reflexivity. }
  exists w0. split; [exact E0|]. split; [rewrite Eq; exact E|].
  split; [exact Eq | exact T].
Qed.

End RunExtras.

Lemma train_without_batches_witness :
  exists w0 w,
    @build_networks (Demo.backend AtCompile) initial_world
    = Ok (the_networks, w0)
    /\ @train (Demo.backend AtCompile) 45 60001 initial_world = Ok (tt, w)
    /\ (forall u, steps_on u (List.map kind_of (trace w)) = 0%nat)
    /\ (forall k, weights w k = weights w0 k)
    /\ optimizers w = optimizers w0
    /\ hidden w = hidden w0
    /\ saved_figures (List.map kind_of (trace w))
       = List.map figure_name (filter checkpoint (py_range 1 (45 + 1))).
Proof.
  apply (@train_without_batches (Demo.backend AtCompile) Demo.x_train
           (Demo.labels 60000) (Demo.images 10000) (Demo.labels 10000)
           (Demo_loaded AtCompile) 45 60001).
  left. lia.
Defined.

Lemma shared_optimizer_counts_both_witness :
  exists w,
    @train (Demo.backend AtCompile) 400 128 initial_world = Ok (tt, w)
    /\ optimizers w
       = [Adam (py_float 2 10000) (py_float 5 10) (2 * (400 * (60000 / 128)))]
    /\ steps_on 1 (List.map kind_of (trace w)) = Z.to_nat (400 * (60000 / 128))
    /\ steps_on 2 (List.map kind_of (trace w)) = Z.to_nat (400 * (60000 / 128)).
Proof.
  apply (@shared_optimizer_counts_both (Demo.backend AtCompile) Demo.x_train
           (Demo.labels 60000) (Demo.images 10000) (Demo.labels 10000)
           (Demo_loaded AtCompile) 400 128); lia.
Defined.


Lemma tensors_of_a_run_witness :
  exists w,
    @train (Demo.backend AtCompile) 400 128 initial_world = Ok (tt, w)
    /\ next_weight w = 16%nat
    /\ (forall k, weights w k = None <-> (16 <= k)%nat)
    /\ List.length (weights_of the_generator) = 8%nat
    /\ List.length (weights_of the_discriminator) = 8%nat
    /\ (forall k, In k (weights_of the_generator ++ weights_of the_discriminator)
                  <-> (k < 16)%nat).
Proof.
  apply (@tensors_of_a_run (Demo.backend AtCompile) Demo.x_train
           (Demo.labels 60000) (Demo.images 10000) (Demo.labels 10000)
           (Demo_loaded AtCompile) 400 128); lia.
Defined.

Lemma models_of_a_run_witness :
  exists w,
    @train (Demo.backend AtCall) 400 128 initial_world = Ok (tt, w)
    /\ compiled w (uid_of the_generator) = Some (0%nat, weights_of the_generator)
    /\ compiled w (uid_of the_discriminator)
       = Some (0%nat, weights_of the_discriminator)
    /\ compiled w (uid_of the_gan) = Some (0%nat, weights_of the_generator)
    /\ (forall u, (3 <= u)%nat -> compiled w u = None)
    /\ next_uid w = 3%nat
    /\ trainable w (uid_of the_discriminator) = false
    /\ trainable w (uid_of the_generator) = true
    /\ trainable w (uid_of the_gan) = true.
Proof.
  apply (@models_of_a_run (Demo.backend AtCall) Demo.x_train
           (Demo.labels 60000) (Demo.images 10000) (Demo.labels 10000)
           (Demo_loaded AtCall) 400 128); lia.
Defined.

Lemma train_nonpositive_epochs_witness :
  exists w0,
    @build_networks (Demo.backend AtCompile) initial_world
    = Ok (the_networks, w0)
    /\ @train (Demo.backend AtCompile) (-3) 128 initial_world = Ok (tt, w0)
    /\ @train (Demo.backend AtCompile) (-3) 128 initial_world
       = @train (Demo.backend AtCompile) 0 128 initial_world
    /\ trace w0 = [SetTrainable 1 false].
Proof.
  apply (@train_nonpositive_epochs (Demo.backend AtCompile) Demo.x_train
           (Demo.labels 60000) (Demo.images 10000) (Demo.labels 10000)
           (Demo_loaded AtCompile) (-3) 128); lia.
Defined.

(* ================================================================== *)
(** ** File names and the number of figures *)

Lemma to_int_not_nil (z : Z) :
  Z.to_int z <> Decimal.Pos Decimal.Nil /\ Z.to_int z <> Decimal.Neg Decimal.Nil.
Proof.
  split; intros H; pose proof (f_equal Z.of_int H) as H';
    rewrite DecimalZ.of_to in H'; cbn in H'; subst z; discriminate H.
Qed.

Lemma string_of_int_inj (a b : Z) :
  NilZero.string_of_int (Z.to_int a) = NilZero.string_of_int (Z.to_int b) ->
  a = b.
Proof.
  intros H. apply DecimalZ.to_int_inj.
  destruct (to_int_not_nil a) as [A1 A2]. destruct (to_int_not_nil b) as [B1 B2].
  pose proof (NilZero.isi _ A1 A2) as Ia. pose proof (NilZero.isi _ B1 B2) as Ib.
  rewrite H in Ia. congruence.
Qed.

Lemma string_length_append (s t : string) :
  String.length (s ++ t) = (String.length s + String.length t)%nat.
Proof. induction s; cbn; [reflexivity | rewrite IHs; reflexivity]. Qed.

Lemma append_cancel_l (s a b : string) : (s ++ a = s ++ b)%string -> a = b.
Proof. induction s; cbn; intros H; [exact H | injection H; auto]. Qed.

Lemma append_cancel_r (t : string) :
  forall a b : string, (a ++ t = b ++ t)%string -> a = b.
Proof.
  induction a as [|c a IH]; intros [|d b] H; cbn in H.
  - reflexivity.
  - exfalso. apply (f_equal String.length) in H. cbn in H.
    rewrite string_length_append in H. lia.
  - exfalso. apply (f_equal String.length) in H. cbn in H.
    rewrite string_length_append in H. lia.
  - injection H as -> H. f_equal. apply IH. exact H.
Qed.

Lemma figure_name_inj (e1 e2 : Z) : figure_name e1 = figure_name e2 -> e1 = e2.
Proof.
  unfold figure_name. intros H.
  apply append_cancel_l, append_cancel_r in H.
  apply string_of_int_inj. exact H.
Qed.

Lemma NoDup_count_from (n : nat) : forall lo, NoDup (count_from lo n).
Proof.
  induction n as [|n IH]; intros lo; cbn; constructor.
  - rewrite In_count_from. lia.
  - apply IH.
Qed.

Lemma count_from_snoc (n : nat) :
  forall lo, count_from lo (S n) = (count_from lo n ++ [lo + Z.of_nat n])%list.
Proof.
  induction n as [|n IH]; intros lo.
  - cbn. rewrite Z.add_0_r. reflexivity.
  - change (count_from lo (S (S n))) with (lo :: count_from (lo + 1) (S n)).
    rewrite IH. cbn [count_from app].
    replace (lo + 1 + Z.of_nat n) with (lo + Z.of_nat (S n)) by lia. reflexivity.
Qed.

Lemma checkpoints_count (n : nat) :
  (1 <= n)%nat ->
  List.length (filter checkpoint (count_from 1 n))
  = Z.to_nat (1 + Z.of_nat n / 20).
Proof.
  induction n as [|n IH]; [lia|]. intros _.
  destruct n as [|n]; [reflexivity|].
  rewrite count_from_snoc, filter_app, length_app, IH by lia.
  set (m := Z.of_nat (S n)) in *.
  replace (Z.of_nat (S (S n))) with (m + 1) by lia.
  assert (Hm : 1 <= m) by lia.
  pose proof (Z.div_mod m 20 ltac:(lia)) as D.
  pose proof (Z.mod_pos_bound m 20 ltac:(lia)) as R.
  assert (Hq : 0 <= m / 20) by (apply Z.div_pos; lia).
  cbn [filter]. unfold checkpoint.
  replace (1 + m =? 1) with false by (symmetry; apply Z.eqb_neq; lia).
  cbn [orb]. replace (1 + m) with (m + 1) by lia.
  destruct (Z.eq_dec (m mod 20) 19) as [E|E].
  - assert (M : (m + 1) mod 20 = 0)
      by (symmetry; apply Z.mod_unique with (q := m / 20 + 1); lia).
    assert (Q : (m + 1) / 20 = m / 20 + 1)
      by (symmetry; apply Z.div_unique with (r := 0); lia).
    rewrite M, Q. change (0 =? 0) with true. cbn [List.length]. lia.
  - assert (M : (m + 1) mod 20 = m mod 20 + 1)
      by (symmetry; apply Z.mod_unique with (q := m / 20); lia).
    assert (Q : (m + 1) / 20 = m / 20)
      by (symmetry; apply Z.div_unique with (r := m mod 20 + 1); lia).
    rewrite M, Q.
    replace (m mod 20 + 1 =? 0) with false by (symmetry; apply Z.eqb_neq; lia).
    cbn [List.length]. lia.
Qed.

Section Figures.

Context {B : Backend}.

Variables (x_train : ndarray Float.t) (y_train x_test y_test : ndarray Z).
Hypothesis loaded :
  load_minst_data mnist_load_data = Ok (x_train, y_train, x_test, y_test).

(** X12: different epochs give different file names, so the figures a run
    saves are pairwise distinct files: no checkpoint overwrites an earlier
    one of the same run. *)
Theorem saved_figures_distinct (epochs batch_size : Z) :
  batch_size <> 0 ->
  (forall e1 e2, figure_name e1 = figure_name e2 -> e1 = e2)
  /\ exists w,
       train epochs batch_size initial_world = Ok (tt, w)
       /\ NoDup (saved_figures (List.map kind_of (trace w))).
Proof.
  intros Hb. split; [exact figure_name_inj|].
  destruct (train_spec x_train y_train x_test y_test loaded epochs batch_size Hb)
    as (q & w & _ & _ & _ & E & _ & K).
  exists w. split; [exact E|].
  rewrite K, saved_figures_run.
  apply Injective_map_NoDup; [exact figure_name_inj|].
  apply NoDup_filter, NoDup_count_from.
Qed.

(** X13: a run of [epochs >= 1] epochs saves [1 + epochs / 20] figures (the
    one of epoch 1 and one for each multiple of 20), a run of no epoch saves
    none. *)
Theorem saved_figures_count (epochs batch_size : Z) :
  batch_size <> 0 ->
  exists w,
    train epochs batch_size initial_world = Ok (tt, w)
    /\ List.length (saved_figures (List.map kind_of (trace w)))
       = if 1 <=? epochs then Z.to_nat (1 + epochs / 20) else 0%nat.
Proof.
  intros Hb.
  destruct (train_spec x_train y_train x_test y_test loaded epochs batch_size Hb)
    as (q & w & _ & _ & _ & E & _ & K).
  exists w. split; [exact E|].
  rewrite K, saved_figures_run, length_map. unfold py_range.
  destruct (Z.leb_spec 1 epochs) as [He|He].
  - rewrite checkpoints_count by lia.
    replace (Z.of_nat (Z.to_nat (epochs + 1 - 1))) with epochs by lia.
    reflexivity.
  - replace (Z.to_nat (epochs + 1 - 1)) with 0%nat by lia. reflexivity.
Qed.

End Figures.

Lemma saved_figures_distinct_witness :
  (forall e1 e2, figure_name e1 = figure_name e2 -> e1 = e2)
  /\ exists w,
       @train (Demo.backend AtCompile) 400 128 initial_world = Ok (tt, w)
       /\ NoDup (saved_figures (List.map kind_of (trace w))).
Proof.
  apply (@saved_figures_distinct (Demo.backend AtCompile) Demo.x_train
           (Demo.labels 60000) (Demo.images 10000) (Demo.labels 10000)
           (Demo_loaded AtCompile) 400 128); lia.
Defined.

Lemma saved_figures_count_witness :
  exists w,
    @train (Demo.backend AtCompile) 400 128 initial_world = Ok (tt, w)
    /\ List.length (saved_figures (List.map kind_of (trace w)))
       = if 1 <=? 400 then Z.to_nat (1 + 400 / 20) else 0%nat.
Proof.
  apply (@saved_figures_count (Demo.backend AtCompile) Demo.x_train
           (Demo.labels 60000) (Demo.images 10000) (Demo.labels 10000)
           (Demo_loaded AtCompile) 400 128); lia.
Defined.

(* ================================================================== *)
(** ** More on a batch, on the models and on plotting *)

Section BatchExtras.

Context {B : Backend}.



(** X16: the discriminator answers a batch of rows of width 784 with one
    value a row and raises ValueError on any other input shape; the
    composite network takes rows of width 100 to one value a row; and the
    two fit: the generator produces the width that the discriminator
    accepts. *)
Theorem classifier_shapes (x : ndarray Float.t) (w : world) :
  (forall n, shape x = [n; 784] ->
     predict the_discriminator x w
     = Ok (Array [n; 1] (forward (weights w) the_discriminator x), w))
  /\ ((forall n, shape x <> [n; 784]) ->
      predict the_discriminator x w = Raise ValueError)
  /\ (forall n, shape x = [n; 100] ->
        predict the_gan x w
        = Ok (Array [n; 1] (forward (weights w) the_gan x), w))
  /\ ((forall n, shape x <> [n; 100]) ->
      predict the_gan x w = Raise ValueError)
  /\ output_width_of the_generator = input_width_of the_discriminator.
Proof.
  split; [intros n Hs; apply (predict_ok the_discriminator x n 784 1); auto|].
  split.
  { intros Hs. unfold predict.
    cbn [input_width_of output_width_of the_discriminator last_units].
    destruct (shape x) as [|n [|d [|? ?]]]; try reflexivity.
    destruct (Z.eqb_spec d 784) as [->|Hd]; [|reflexivity].
    exfalso. apply (Hs n). reflexivity. }
  split; [intros n Hs; apply (predict_ok the_gan x n 100 1); auto|].
  split; [|reflexivity].
  intros Hs. unfold predict.
  cbn [input_width_of output_width_of the_gan the_generator the_discriminator
       last_units].
  destruct (shape x) as [|n [|d [|? ?]]]; try reflexivity.
  destruct (Z.eqb_spec d 100) as [->|Hd]; [|reflexivity].
  exfalso. apply (Hs n). reflexivity.
Qed.

(** X17: plotting reads the model and writes one file.  On a model that
    takes rows of width 100 to rows of width 784 it returns normally, having
    called numpy's generator once and saved the figure named after the
    epoch, with every weight, optimizer, flag and compiled model as before;
    on a model of any other widths (the discriminator, say) it raises
    ValueError and saves nothing. *)
Theorem plot_generated_images_effect (e d o : Z) (m : model) (w : world) :
  input_width_of m = Some d -> output_width_of m = Some o ->
  plot_generated_images e m w
  = if (d =? 100) && (o =? 784)
    then Ok (tt, World (rng_next (np_random w)) (weights w) (next_weight w)
                       (optimizers w) (next_uid w) (trainable w) (compiled w)
                       (hidden w) (trace w ++ [Savefig (figure_name e)]))
    else Raise ValueError.
Proof.
  intros Hi Ho.
  destruct (Z.eqb_spec d 100) as [->|Hd].
  - destruct (Z.eqb_spec o 784) as [->|Hne]; cbn [andb].
    + apply plot_generated_images_eval; assumption.
    + unfold plot_generated_images.
      rewrite (bind_ok _ _ _ _ _ (np_random_normal_ok 100 random_dim w
                                    ltac:(lia) ltac:(unfold random_dim; lia))).
      erewrite bind_ok; [|apply (predict_ok m _ 100 random_dim o); auto].
      unfold bind, lift, reshape. cbn [shape size fold_right].
      replace (100 * (28 * (28 * 1)) =? 100 * (o * 1)) with false
        by (symmetry; apply Z.eqb_neq; lia).
      reflexivity.
  - cbn [andb]. unfold plot_generated_images.
    rewrite (bind_ok _ _ _ _ _ (np_random_normal_ok 100 random_dim w
                                  ltac:(lia) ltac:(unfold random_dim; lia))).
    unfold bind, predict. cbn [shape]. rewrite Hi, Ho.
    unfold random_dim.
    replace (100 =? d) with false by (symmetry; apply Z.eqb_neq; lia).
    reflexivity.
Qed.

End BatchExtras.



Lemma plot_generated_images_effect_witness :
  @plot_generated_images (Demo.backend AtCompile) 20 the_discriminator
                         (Demo.built AtCompile)
  = if (784 =? 100) && (1 =? 784)
    then Ok (tt, World (rng_next (np_random (Demo.built AtCompile)))
                       (weights (Demo.built AtCompile))
                       (next_weight (Demo.built AtCompile))
                       (optimizers (Demo.built AtCompile))
                       (next_uid (Demo.built AtCompile))
                       (trainable (Demo.built AtCompile))
                       (compiled (Demo.built AtCompile))
                       (hidden (Demo.built AtCompile))
                       (trace (Demo.built AtCompile)
                        ++ [Savefig (figure_name 20)]))
    else Raise ValueError.
Proof.
  apply (@plot_generated_images_effect (Demo.backend AtCompile) 20 784 1
           the_discriminator (Demo.built AtCompile) eq_refl eq_refl).
Defined.

Lemma classifier_shapes_witness :
  @predict (Demo.backend AtCompile) the_discriminator
           (Array [256; 784] (fun _ => Float.zero)) (Demo.built AtCompile)
  = Ok (Array [256; 1]
              (forward (weights (Demo.built AtCompile)) the_discriminator
                       (Array [256; 784] (fun _ => Float.zero))),
        Demo.built AtCompile)
  /\ @predict (Demo.backend AtCompile) the_discriminator
              (Array [256; 100] (fun _ => Float.zero)) (Demo.built AtCompile)
     = Raise ValueError.
Proof.
  split.
  - apply (proj1 (@classifier_shapes (Demo.backend AtCompile)
                    (Array [256; 784] (fun _ => Float.zero))
                    (Demo.built AtCompile)) 256 eq_refl).
  - apply (proj1 (proj2 (@classifier_shapes (Demo.backend AtCompile)
                           (Array [256; 100] (fun _ => Float.zero))
                           (Demo.built AtCompile)))).
    intros n H. discriminate H.
Defined.

(* ================================================================== *)
(** ** The constructors in any world *)

Section Builders.

Context {B : Backend}.

Lemma upd_other {V} (f : nat -> V) (k k' : nat) (v : V) :
  k' <> k -> upd f k v k' = f k'.
Proof.
  intros H. unfold upd. destruct (Nat.eqb_spec k' k); [contradiction|reflexivity].
Qed.

Lemma upd_same {V} (f : nat -> V) (k : nat) (v : V) : upd f k v k = v.
Proof. unfold upd. rewrite Nat.eqb_refl. reflexivity. Qed.

Lemma trainable_weights_frozen (t : nat -> bool) (m : model) :
  t (uid_of m) = false -> trainable_weights t m = [].
Proof. destruct m; cbn; intros ->; reflexivity. Qed.

(** X18: [get_generator] builds a new model wherever it is called: the
    model gets the next free identity and eight tensors that did not exist
    before, takes rows of width 100 to rows of width 784, and is compiled
    on the optimizer given; no tensor that existed is touched, no optimizer
    is created and nothing is trained. *)
Theorem get_generator_fresh (o : nat) (w : world) :
  trainable w (next_uid w) = true ->
  exists m w',
    get_generator o w = Ok (m, w')
    /\ uid_of m = next_uid w
    /\ weights_of m = List.map (fun i => (i + next_weight w)%nat) (seq 0 8)
    /\ input_width_of m = Some 100 /\ output_width_of m = Some 784
    /\ next_uid w' = S (next_uid w)
    /\ next_weight w' = (8 + next_weight w)%nat
    /\ (forall k, In k (weights_of m) -> weights w' k <> None)
    /\ (forall k, ~ In k (weights_of m) -> weights w' k = weights w k)
    /\ compiled w' (next_uid w) = Some (o, weights_of m)
    /\ (forall u, u <> next_uid w -> compiled w' u = compiled w u)
    /\ optimizers w' = optimizers w
    /\ trace w' = trace w.
Proof.
  destruct w as [g s n os u t c h tr]. cbn [trainable next_uid]. intros Ht.
  do 2 eexists.
  split; [cbv - [py_float upd]; cbv in Ht; rewrite Ht; reflexivity|].
  cbn [uid_of weights_of flat_map snd app input_width_of output_width_of
       last_units next_uid next_weight weights compiled optimizers trace
       List.map seq trainable Nat.add].
  split; [reflexivity|]. split; [reflexivity|].
  split; [reflexivity|]. split; [reflexivity|]. split; [reflexivity|].
  split; [reflexivity|].
  split.
  { intros k Hk. unfold upd.
    repeat match goal with
           | |- context [Nat.eqb k ?x] =>
               destruct (Nat.eqb_spec k x); [discriminate|]
           end.
    exfalso. cbn [In] in Hk. lia. }
  split.
  { intros k Hk. cbn [In] in Hk. rewrite !upd_other by lia. reflexivity. }
  split; [rewrite upd_same; reflexivity|].
  split; [|split; reflexivity].
  intros v Hv. apply upd_other. exact Hv.
Qed.

(** X19: [get_discriminator] likewise: a new model with the next free
    identity and eight new tensors, taking rows of width 784 to one value a
    row, compiled on the optimizer given, with every tensor, optimizer and
    compiled model that existed left as it was. *)
Theorem get_discriminator_fresh (o : nat) (w : world) :
  trainable w (next_uid w) = true ->
  exists m w',
    get_discriminator o w = Ok (m, w')
    /\ uid_of m = next_uid w
    /\ weights_of m = List.map (fun i => (i + next_weight w)%nat) (seq 0 8)
    /\ input_width_of m = Some 784 /\ output_width_of m = Some 1
    /\ next_uid w' = S (next_uid w)
    /\ next_weight w' = (8 + next_weight w)%nat
    /\ (forall k, In k (weights_of m) -> weights w' k <> None)
    /\ (forall k, ~ In k (weights_of m) -> weights w' k = weights w k)
    /\ compiled w' (next_uid w) = Some (o, weights_of m)
    /\ (forall u, u <> next_uid w -> compiled w' u = compiled w u)
    /\ optimizers w' = optimizers w
    /\ trace w' = trace w.
Proof.
  destruct w as [g s n os u t c h tr]. cbn [trainable next_uid]. intros Ht.
  do 2 eexists.
  split; [cbv - [py_float upd]; cbv in Ht; rewrite Ht; reflexivity|].
  cbn [uid_of weights_of flat_map snd app input_width_of output_width_of
       last_units next_uid next_weight weights compiled optimizers trace
       List.map seq trainable Nat.add].
  split; [reflexivity|]. split; [reflexivity|].
  split; [reflexivity|]. split; [reflexivity|]. split; [reflexivity|].
  split; [reflexivity|].
  split.
  { intros k Hk. unfold upd.
    repeat match goal with
           | |- context [Nat.eqb k ?x] =>
               destruct (Nat.eqb_spec k x); [discriminate|]
           end.
    exfalso. cbn [In] in Hk. lia. }
  split.
  { intros k Hk. cbn [In] in Hk. rewrite !upd_other by lia. reflexivity. }
  split; [rewrite upd_same; reflexivity|].
  split; [|split; reflexivity].
  intros v Hv. apply upd_other. exact Hv.
Qed.

(** X20: [get_gan_network] changes its argument: the discriminator passed
    in is left with [trainable = False] for the caller too.  The composite
    model it returns is a new object over the very two models given; it
    creates no tensor, and what it collects at [compile] is the generator's
    trainable weights and none of the discriminator's. *)
Theorem get_gan_network_effect (d g : model) (rd : Z) (o : nat) (w : world) :
  (uid_of d < next_uid w)%nat -> trainable w (next_uid w) = true ->
  exists w',
    get_gan_network d rd g o w = Ok (Model (next_uid w) rd [g; d], w')
    /\ trainable w' (uid_of d) = false
    /\ (forall u, u <> uid_of d -> trainable w' u = trainable w u)
    /\ trainable_weights (trainable w') d = []
    /\ compiled w' (next_uid w) = Some (o, trainable_weights (trainable w') g)
    /\ (forall u, u <> next_uid w -> compiled w' u = compiled w u)
    /\ trace w' = trace w ++ [SetTrainable (uid_of d) false]
    /\ weights w' = weights w
    /\ next_weight w' = next_weight w
    /\ next_uid w' = S (next_uid w)
    /\ optimizers w' = optimizers w.
Proof.
  destruct w as [r s n os u t c h tr].
  cbn [trainable next_uid]. intros Hd Ht.
  eexists. split; [reflexivity|].
  cbn [trainable compiled trace weights next_weight next_uid optimizers
       set_trainable_map set_compiled set_next_uid uid_of].
  split; [apply upd_same|].
  split; [intros v Hv; apply upd_other; exact Hv|].
  split; [apply trainable_weights_frozen, upd_same|].
  split.
  { rewrite upd_same. f_equal. f_equal.
    cbn [trainable_weights flat_map].
    rewrite upd_other, Ht by lia.
    rewrite (trainable_weights_frozen _ d) by apply upd_same.
    rewrite !app_nil_r. reflexivity. }
  split; [intros v Hv; apply upd_other; exact Hv|].
  repeat split; reflexivity.
Qed.

End Builders.

Lemma get_generator_fresh_witness :
  exists m w',
    @get_generator (Demo.backend AtCompile) 0 (Demo.built AtCompile)
    = Ok (m, w')
    /\ uid_of m = 3%nat
    /\ weights_of m = [16; 17; 18; 19; 20; 21; 22; 23]%nat
    /\ (forall k, (k < 16)%nat ->
          weights w' k = weights (Demo.built AtCompile) k).
Proof.
  destruct (@get_generator_fresh (Demo.backend AtCompile) 0
              (Demo.built AtCompile) eq_refl)
    as (m & w' & E & U & W & _ & _ & _ & _ & _ & F & _).
  exists m, w'. split; [exact E|]. split; [exact U|]. split; [exact W|].
  intros k Hk. apply F. rewrite W. vm_compute. lia.
Defined.

Lemma get_discriminator_fresh_witness :
  exists m w',
    @get_discriminator (Demo.backend AtCompile) 0 (Demo.built AtCompile)
    = Ok (m, w')
    /\ uid_of m = 3%nat
    /\ weights_of m = [16; 17; 18; 19; 20; 21; 22; 23]%nat
    /\ (forall k, (k < 16)%nat ->
          weights w' k = weights (Demo.built AtCompile) k).
Proof.
  destruct (@get_discriminator_fresh (Demo.backend AtCompile) 0
              (Demo.built AtCompile) eq_refl)
    as (m & w' & E & U & W & _ & _ & _ & _ & _ & F & _).
  exists m, w'. split; [exact E|]. split; [exact U|]. split; [exact W|].
  intros k Hk. apply F. rewrite W. vm_compute. lia.
Defined.

Lemma get_gan_network_effect_witness :
  exists w',
    @get_gan_network (Demo.backend AtCompile) the_discriminator 100
                     the_generator 0 (Demo.built AtCompile)
    = Ok (Model 3 100 [the_generator; the_discriminator], w')
    /\ trainable w' 1%nat = false
    /\ compiled w' 3%nat = Some (0%nat, weights_of the_generator).
Proof.
  destruct (@get_gan_network_effect (Demo.backend AtCompile) the_discriminator
              the_generator 100 0 (Demo.built AtCompile)
              ltac:(vm_compute; lia) eq_refl)
    as (w' & E & F & Fo & _ & C & _).
  exists w'. split; [exact E|]. split; [exact F|].
  change (compiled w' (next_uid (Demo.built AtCompile))
          = Some (0%nat, weights_of the_generator)).
  rewrite C. f_equal. f_equal.
  cbn [trainable_weights the_generator]. rewrite Fo by discriminate.
  reflexivity.
Defined.
